(** * Fastcite backend: the Celery tasks of [celery_app/tasks.py]

    A shallow embedding of the ingestion task, the deletion tasks and the
    retrieval pipeline, with the backing stores (Mongo book registry, Qdrant
    vector index, Backblaze B2, the Celery broker) as an explicit world that
    every task threads through, and Python exceptions as an error value that
    leaves the effects already performed in place. *)

From Stdlib Require Import List String Ascii ZArith QArith Bool Arith Lia.
From Stdlib Require Import Permutation Sorted DecimalString.
Import ListNotations.
Local Open Scope string_scope.
Local Open Scope nat_scope.

(** ** Python exceptions met by the tasks *)

Inductive exn : Type :=
| EnvironmentError (msg : string)
| FileNotFoundError (msg : string)
| ValueError (msg : string)
| AttributeError (msg : string)
| TypeError (msg : string)
| RuntimeError (msg : string)
| Exception (msg : string).

(** ** Documents stored in the [books] collection

    A Mongo document is a dict: every key the tasks read through [in] or
    [.get] may be absent. *)

Record BookDoc : Type := mkBook {
  bk_oid : nat;                          (* "_id" *)
  bk_id : option string;                 (* "id" *)
  bk_title : option string;
  bk_author_name : option string;
  bk_pages : option Z;
  bk_status : option string;
  bk_uploaded_at : option nat;
  bk_uploaded_by : option (list string)
}.

(** Query documents used by the tasks: [{"_id": n}], [{"id": s}], [{"title": s}]. *)
Inductive mongo_filter : Type :=
| ByOid (n : nat)
| ById (s : string)
| ByTitle (s : string).

(** The update operators the tasks write. *)
Inductive update_op : Type :=
| SetId (v : string)                     (* {"$set": {"id": v}} *)
| SetStatus (v : string)                 (* {"$set": {"status": v}} *)
| AddToSetUploadedBy (u : string)        (* {"$addToSet": {"uploaded_by": u}} *)
| PullUploadedBy (u : string).           (* {"$pull": {"uploaded_by": u}} *)

(** A dict passed where the driver expects an update document: either one
    whose top-level key is a [$] operator, or the plain document
    [{"id": v}]. *)
Inductive pydict : Type :=
| Operators (op : update_op)
| PlainId (v : string).

Definition mem_string (s : string) (l : list string) : bool :=
  existsb (String.eqb s) l.

(** ** Parsed PDF documents, chunks, vector points and stored assets *)

(** One row of [doc.get_toc()]: [[level, title, page]]. *)
Record toc_entry : Type := mkToc {
  te_level : Z;
  te_title : string;
  te_page : Z
}.

Record Document : Type := mkDoc {
  doc_toc : list toc_entry;              (* doc.get_toc() *)
  page_count : Z;                        (* doc.page_count *)
  doc_metadata : string * string;        (* title and author of the file *)
  doc_pages : list string                (* text of each page *)
}.

(** A leaf of the outline tree: the keys [process_node] reads. *)
Record leaf_node : Type := mkLeaf {
  ln_title : string;
  ln_page : Z;
  ln_path : list string
}.

(** The dict [process_node] returns. *)
Record Chunk : Type := mkChunk {
  ch_title : string;
  ch_path : string;
  ch_start_page : Z;
  ch_end_page : Z;
  ch_local_path : string;
  ch_filename : string;
  ch_text : string
}.

(** [models.PointStruct(id, vector, payload)]. *)
Record Point : Type := mkPoint {
  pt_id : Z;
  pt_vector : list Q;
  pt_chunk_id : string;
  pt_book_id : string;
  pt_book_name : string;
  pt_author_name : string;
  pt_start_page : Z;
  pt_end_page : Z;
  pt_heading : string;
  pt_path : string;
  pt_content : string;
  pt_source_pdf : option string
}.

(** The [file_info] metadata attached to an uploaded mini-PDF. *)
Record FileInfo : Type := mkFileInfo {
  fi_book_id : string;
  fi_book_name : string;
  fi_author_name : string
}.

Record B2File : Type := mkB2File {
  b2_file_name : string;
  b2_file_info : FileInfo
}.

(** ** The world the tasks run in *)

(** Every call a task makes on a backing store or collaborator, in order. *)
Inductive call : Type :=
| QdrantGetCollections
| QdrantCreateCollection (name : string)
| QdrantUpsert (collection : string) (ids : list Z)
| MongoFindOne (f : mongo_filter)
| MongoUpdateOne (f : mongo_filter) (update : pydict) (upsert : option pydict)
| MongoInsertOne (d : BookDoc)
| MongoDeleteOne (f : mongo_filter)
| B2UploadOne (local_path filename : string)
| EmbedBatch (texts : nat)
| CeleryDelay (task arg : string).

Record World : Type := mkWorld {
  embedder : bool;                       (* truthiness of the global clients *)
  QDRANT_CLIENT : bool;
  B2_UPLOADER : bool;
  disk : list (string * Document);       (* files that exist, as fitz opens them *)
  qdrant_collections : list string;
  qdrant_points : list Point;            (* points of "pdf_chunks" *)
  books_collection : list BookDoc;
  b2_files : list B2File;
  celery_queue : list (string * string); (* jobs sent by .delay: task name, argument *)
  entropy : nat -> Z;                    (* the 128-bit draws of uuid.uuid4() *)
  next_uuid : nat;
  next_oid : nat;
  utcnow : nat;
  calls : list call
}.

Definition with_collections (l : list string) (w : World) : World :=
  mkWorld (embedder w) (QDRANT_CLIENT w) (B2_UPLOADER w) (disk w) l
          (qdrant_points w) (books_collection w) (b2_files w) (celery_queue w)
          (entropy w) (next_uuid w) (next_oid w) (utcnow w) (calls w).

Definition with_points (l : list Point) (w : World) : World :=
  mkWorld (embedder w) (QDRANT_CLIENT w) (B2_UPLOADER w) (disk w)
          (qdrant_collections w) l (books_collection w) (b2_files w)
          (celery_queue w) (entropy w) (next_uuid w) (next_oid w) (utcnow w)
          (calls w).

Definition with_books (l : list BookDoc) (w : World) : World :=
  mkWorld (embedder w) (QDRANT_CLIENT w) (B2_UPLOADER w) (disk w)
          (qdrant_collections w) (qdrant_points w) l (b2_files w)
          (celery_queue w) (entropy w) (next_uuid w) (next_oid w) (utcnow w)
          (calls w).

Definition with_b2_files (l : list B2File) (w : World) : World :=
  mkWorld (embedder w) (QDRANT_CLIENT w) (B2_UPLOADER w) (disk w)
          (qdrant_collections w) (qdrant_points w) (books_collection w) l
          (celery_queue w) (entropy w) (next_uuid w) (next_oid w) (utcnow w)
          (calls w).

Definition with_queue (l : list (string * string)) (w : World) : World :=
  mkWorld (embedder w) (QDRANT_CLIENT w) (B2_UPLOADER w) (disk w)
          (qdrant_collections w) (qdrant_points w) (books_collection w)
          (b2_files w) l (entropy w) (next_uuid w) (next_oid w) (utcnow w)
          (calls w).

Definition with_next_uuid (n : nat) (w : World) : World :=
  mkWorld (embedder w) (QDRANT_CLIENT w) (B2_UPLOADER w) (disk w)
          (qdrant_collections w) (qdrant_points w) (books_collection w)
          (b2_files w) (celery_queue w) (entropy w) n (next_oid w) (utcnow w)
          (calls w).

Definition with_next_oid (n : nat) (w : World) : World :=
  mkWorld (embedder w) (QDRANT_CLIENT w) (B2_UPLOADER w) (disk w)
          (qdrant_collections w) (qdrant_points w) (books_collection w)
          (b2_files w) (celery_queue w) (entropy w) (next_uuid w) n (utcnow w)
          (calls w).

Definition with_calls (l : list call) (w : World) : World :=
  mkWorld (embedder w) (QDRANT_CLIENT w) (B2_UPLOADER w) (disk w)
          (qdrant_collections w) (qdrant_points w) (books_collection w)
          (b2_files w) (celery_queue w) (entropy w) (next_uuid w) (next_oid w)
          (utcnow w) l.

(** ** The task monad: state over the world, with exceptions

    An exception stops the task; what the task did to the stores before
    raising stays done. *)

Definition M (A : Type) : Type := World -> (exn + A) * World.

Definition ret {A : Type} (a : A) : M A := fun w => (inr a, w).

Definition bind {A B : Type} (c : M A) (k : A -> M B) : M B :=
  fun w =>
    match c w with
    | (inl e, w') => (inl e, w')
    | (inr a, w') => k a w'
    end.

Definition raise {A : Type} (e : exn) : M A := fun w => (inl e, w).

Definition gets {A : Type} (f : World -> A) : M A := fun w => (inr (f w), w).

Definition modify (f : World -> World) : M unit := fun w => (inr tt, f w).

Declare Scope task_scope.
Delimit Scope task_scope with task.
Notation "x <- c ;; k" := (bind c (fun x => k))
  (at level 61, c at next level, right associativity) : task_scope.
Notation "c ;; k" := (bind c (fun _ => k))
  (at level 61, right associativity) : task_scope.
Local Open Scope task_scope.

Definition record (c : call) : M unit :=
  modify (fun w => with_calls (calls w ++ [c])%list w).

(** ** [uuid.uuid4()] *)

Definition hex_digit (n : Z) : ascii :=
  nth (Z.to_nat n) (list_ascii_of_string "0123456789abcdef") "0"%char.

(** The [k] lowest hexadecimal digits of [z], most significant first. *)
Fixpoint hex_digits (k : nat) (z : Z) : string :=
  match k with
  | O => EmptyString
  | S k' => hex_digits k' (Z.shiftr z 4) ++ String (hex_digit (Z.land z 15)) EmptyString
  end.

(** [str(u)] for a UUID whose [.int] is [z]. *)
Definition uuid_str (z : Z) : string :=
  let h := hex_digits 32 z in
  substring 0 8 h ++ "-" ++ substring 8 4 h ++ "-" ++ substring 12 4 h ++ "-"
    ++ substring 16 4 h ++ "-" ++ substring 20 12 h.

(** A draw of [uuid.uuid4()], as its [.int]. *)
Definition uuid4 : M Z :=
  z <- gets (fun w => entropy w (next_uuid w)) ;;
  modify (fun w => with_next_uuid (S (next_uuid w)) w) ;;
  ret z.

(** ** The Mongo collection [books_collection]

    [database/mongo.py] binds [books_collection] to a collection of the
    asynchronous Motor driver, and the tasks call it without [await]. A
    call hands the operation to the driver's thread pool and returns a
    Future at once; no event loop runs in the task, so the Future stays
    pending for as long as the task looks at it, and an error of the
    operation stays inside it. The task sees the Future, never a document;
    what the thread pool does with the operation happens beside the task
    and is not part of its run. Every call is entered in [calls]. *)

(** The pending Future a call returns, with the operation it stands for. *)
Inductive MotorFuture : Type :=
| Pending (operation : call).

Definition find_one (f : mongo_filter) : M MotorFuture :=
  record (MongoFindOne f) ;;
  ret (Pending (MongoFindOne f)).

Definition update_one (f : mongo_filter) (update : pydict) (upsert : option pydict)
  : M MotorFuture :=
  record (MongoUpdateOne f update upsert) ;;
  ret (Pending (MongoUpdateOne f update upsert)).

Definition insert_one (d : BookDoc) : M MotorFuture :=
  record (MongoInsertOne d) ;;
  ret (Pending (MongoInsertOne d)).

Definition delete_one (f : mongo_filter) : M MotorFuture :=
  record (MongoDeleteOne f) ;;
  ret (Pending (MongoDeleteOne f)).

(** *** What Python does with a pending Future *)

(** [bool(fut)]: an object without [__bool__] and [__len__] is true. *)
Definition future_truthy (fut : MotorFuture) : bool := true.

(** [key in fut] and [key not in fut]: a Future has no [__contains__], so
    Python iterates it; a pending Future yields itself once and then
    raises. *)
Definition future_contains (key : string) (fut : MotorFuture) : exn + bool :=
  inl (RuntimeError "await wasn't used with future").

(** [fut.get(key, default)]. *)
Definition future_get {A : Type} (fut : MotorFuture) (key : string) (default : A)
  : exn + A :=
  inl (AttributeError "'_asyncio.Future' object has no attribute 'get'").

(** [fut[key]]. *)
Definition future_getitem {A : Type} (fut : MotorFuture) (key : string) : exn + A :=
  inl (TypeError "'_asyncio.Future' object is not subscriptable").

(** ** The Qdrant client *)

Definition get_collections : M (list string) :=
  record QdrantGetCollections ;;
  gets qdrant_collections.

Definition create_collection (name : string) : M unit :=
  record (QdrantCreateCollection name) ;;
  modify (fun w => with_collections (qdrant_collections w ++ [name])%list w).

Definition has_point_id (i : Z) (l : list Point) : bool :=
  existsb (fun p => Z.eqb (pt_id p) i) l.

(** [upsert(collection_name, points)]: a point replaces the stored point of
    the same id. *)
Definition upsert (collection_name : string) (points : list Point) : M unit :=
  record (QdrantUpsert collection_name (map pt_id points)) ;;
  modify (fun w =>
    with_points
      (List.filter (fun p => negb (has_point_id (pt_id p) points)) (qdrant_points w)
         ++ points)%list
      w).

(** ** Celery: module globals and [.delay] *)

(** What a module-level name of [tasks.py] is bound to: the task object a
    decorated [def] leaves, or the plain function an undecorated [def]
    leaves. *)
Inductive callable : Type :=
| CeleryTask (name : string)
| PlainFunction (name : string).

(** The top-level [def]s of [tasks.py], in source order, each with the
    object its statement binds. [delete_qdrant_chunks_task] is defined
    twice: first under [@celery_app.task], then again without a decorator. *)
Definition module_defs : list (string * callable) :=
  [ ("process_pdf_task", CeleryTask "process_pdf_to_qdrant_task");
    ("delete_qdrant_chunks_task", CeleryTask "delete_qdrant_chunks_task");
    ("delete_qdrant_chunks_task", PlainFunction "delete_qdrant_chunks_task");
    ("delete_b2_pdfs_task", CeleryTask "delete_b2_pdfs_task");
    ("delete_book_task", CeleryTask "delete_book_task");
    ("search_similar_in_books_task", CeleryTask "tasks.search_similar_in_books");
    ("select_top_contexts_task", CeleryTask "tasks.select_top_contexts");
    ("call_model_task", CeleryTask "tasks.call_model");
    ("process_contexts_and_generate_task",
       CeleryTask "tasks.process_contexts_and_generate") ].

(** A later binding of a name replaces the earlier one. *)
Fixpoint lookup_global (name : string) (defs : list (string * callable))
  : option callable :=
  match defs with
  | [] => None
  | (n, c) :: r =>
      match lookup_global name r with
      | Some c' => Some c'
      | None => if String.eqb n name then Some c else None
      end
  end.

(** [f.delay(arg)]: a task object sends a job to the broker and returns at
    once; a plain function has no such attribute. *)
Definition delay (f : callable) (arg : string) : M unit :=
  match f with
  | CeleryTask name =>
      record (CeleryDelay name arg) ;;
      modify (fun w => with_queue (celery_queue w ++ [(name, arg)])%list w)
  | PlainFunction _ =>
      raise (AttributeError "'function' object has no attribute 'delay'")
  end.

(** ** The helpers of [app/helpers.py] and [app/embedder.py]

    [tasks.py] imports these by name; their bodies belong to modules kept
    outside this development, so the tasks are stated over any
    implementation of them. A helper that can raise returns [inl]. *)

Class Helpers : Type := {
  toc_tree : Type;
  extract_metadata : Document -> string * string;
  build_toc_tree : list toc_entry -> toc_tree;
  collect_leaf_nodes : toc_tree -> list leaf_node;
  extract_text_for_node : Document -> Z -> Z -> exn + string;
  save_mini_pdf : Document -> Z -> Z -> string -> string -> exn + (string * string);
  b2_upload_one : string -> string -> FileInfo -> option string;
  embed_batch : list string -> Z -> list (list Q)
}.

(** ** [process_pdf_task] *)

(** The dict the task returns; the key ["status"] is only set on the
    existing-book branch. *)
Record IngestResult : Type := mkIngestResult {
  r_book_id : string;
  r_title : string;
  r_author_name : string;
  r_chunks : nat;
  r_status : option string
}.

(** The characters [str.strip()] removes. A character of a Rocq string
    stands for the code point of the same number, so the text of the model
    ranges over the code points below 256; the white space among them is
    U+0009 to U+000D, U+001C to U+001F, U+0020, U+0085 and U+00A0. *)
Definition is_space (c : ascii) : bool :=
  let n := nat_of_ascii c in
  Nat.eqb n 32 || (Nat.leb 9 n && Nat.leb n 13) || (Nat.leb 28 n && Nat.leb n 31)
  || Nat.eqb n 133 || Nat.eqb n 160.

(** [not text.strip()]. *)
Fixpoint strip_is_empty (s : string) : bool :=
  match s with
  | EmptyString => true
  | String c r => is_space c && strip_is_empty r
  end.

(** The first two assignments of [process_node(i)]: the page range
    [[start_page, end_page)] of leaf [i]. *)
Definition section_bounds (leaf_nodes : list leaf_node) (doc_page_count : Z)
  (i : nat) (node : leaf_node) : Z * Z :=
  let start_page := ln_page node in
  let end_page :=
    if Nat.ltb (i + 1) (List.length leaf_nodes)
    then ln_page (nth (i + 1) leaf_nodes node)
    else (doc_page_count + 1)%Z in
  (start_page, end_page).

Definition process_node {H : Helpers} (leaf_nodes : list leaf_node) (doc : Document)
  (pdf_dir book_id : string) (i : nat) : exn + option Chunk :=
  match nth_error leaf_nodes i with
  | None => inl (Exception "list index out of range")
  | Some node =>
      let '(start_page, end_page) := section_bounds leaf_nodes (page_count doc) i node in
      match extract_text_for_node doc start_page end_page with
      | inl e => inl e
      | inr text =>
          if strip_is_empty text then inr None
          else
            match save_mini_pdf doc start_page end_page pdf_dir book_id with
            | inl e => inl e
            | inr (local_pdf_path, pdf_filename) =>
                inr (Some (mkChunk (ln_title node)
                                   (String.concat " > " (ln_path node))
                                   start_page (end_page - 1)%Z
                                   local_pdf_path pdf_filename text))
            end
      end
  end.

(** [for result in executor.map(process_node, range(n)): if result:
    pdf_chunks.append(result)]. The executor hands the results back in
    index order; the exception of an item is raised again when the loop
    reaches that item's result, and nothing around the loop catches it. *)
Fixpoint collect_results (results : list (exn + option Chunk))
  (pdf_chunks : list Chunk) : exn + list Chunk :=
  match results with
  | [] => inr pdf_chunks
  | inl e :: _ => inl e
  | inr None :: r => collect_results r pdf_chunks
  | inr (Some c) :: r => collect_results r (pdf_chunks ++ [c])%list
  end.

Definition extraction_stage {H : Helpers} (leaf_nodes : list leaf_node)
  (doc : Document) (pdf_dir book_id : string) : exn + list Chunk :=
  collect_results
    (map (process_node leaf_nodes doc pdf_dir book_id) (seq 0 (List.length leaf_nodes)))
    [].

Definition lift {A : Type} (r : exn + A) : M A :=
  match r with
  | inl e => raise e
  | inr a => ret a
  end.

(** [ThreadPoolExecutor(max_workers=workers)]. *)
Definition thread_pool (workers : Z) : M unit :=
  if (workers <=? 0)%Z then raise (ValueError "max_workers must be greater than 0")
  else ret tt.

(** [B2_UPLOADER.upload_one(local_path, filename, file_info)]. *)
Definition upload_one {H : Helpers} (chunk : Chunk) (file_info : FileInfo)
  : M (option string) :=
  record (B2UploadOne (ch_local_path chunk) (ch_filename chunk)) ;;
  match b2_upload_one (ch_local_path chunk) (ch_filename chunk) file_info with
  | Some url =>
      modify (fun w =>
        with_b2_files (b2_files w ++ [mkB2File (ch_filename chunk) file_info])%list w) ;;
      ret (Some url)
  | None => ret None
  end.

Fixpoint upload_all {H : Helpers} (pdf_chunks : list Chunk) (file_info : FileInfo)
  : M (list (option string)) :=
  match pdf_chunks with
  | [] => ret []
  | c :: r =>
      u <- upload_one c file_info ;;
      us <- upload_all r file_info ;;
      ret (u :: us)
  end.

(** Truthiness of an upload result: [None] and the empty string are false. *)
Definition truthy_url (u : option string) : bool :=
  match u with
  | Some s => negb (String.eqb s EmptyString)
  | None => false
  end.

(** [[c for c, u in zip(pdf_chunks, all_urls) if u]]. *)
Definition valid_chunks_of (pdf_chunks : list Chunk) (all_urls : list (option string))
  : list Chunk :=
  map fst (List.filter (fun cu => truthy_url (snd cu)) (combine pdf_chunks all_urls)).

Fixpoint zip3 {A B C : Type} (a : list A) (b : list B) (c : list C)
  : list (A * B * C) :=
  match a, b, c with
  | x :: a', y :: b', z :: c' => (x, y, z) :: zip3 a' b' c'
  | _, _, _ => []
  end.

(** The loop of step 6 that builds [points]: per triple, one draw for
    ["chunk_id"] and one for the point id, [uuid4().int >> 64]. *)
Fixpoint build_points (book_id title author_name : string)
  (l : list (Chunk * list Q * option string)) : M (list Point) :=
  match l with
  | [] => ret []
  | (chunk, vector, url) :: r =>
      chunk_id <- uuid4 ;;
      point_id <- uuid4 ;;
      ps <- build_points book_id title author_name r ;;
      ret (mkPoint (Z.shiftr point_id 64) vector (uuid_str chunk_id) book_id title
                   author_name (ch_start_page chunk) (ch_end_page chunk)
                   (ch_title chunk) (ch_path chunk) (ch_text chunk) url :: ps)
  end.

(** [for i in range(0, len(points), batch_size)] for a positive step: the
    body sends the batch [points[i:i + batch_size]] twice. *)
Fixpoint upsert_batches (fuel : nat) (collection_name : string) (batch_size : nat)
  (points : list Point) : M unit :=
  match fuel, points with
  | _, [] => ret tt
  | O, _ => ret tt
  | S fuel', _ =>
      upsert collection_name (firstn batch_size points) ;;
      upsert collection_name (firstn batch_size points) ;;
      upsert_batches fuel' collection_name batch_size (skipn batch_size points)
  end.

Definition upsert_loop (collection_name : string) (batch_size : Z)
  (points : list Point) : M unit :=
  if (batch_size =? 0)%Z then raise (ValueError "range() arg 3 must not be zero")
  else if (batch_size <? 0)%Z then ret tt
  else upsert_batches (List.length points) collection_name (Z.to_nat batch_size) points.

Fixpoint find_file (path : string) (files : list (string * Document))
  : option Document :=
  match files with
  | [] => None
  | (p, d) :: r => if String.eqb p path then Some d else find_file path r
  end.

(** [fitz.open(pdf_path)]. *)
Definition fitz_open (pdf_path : string) : M Document :=
  found <- gets (fun w => find_file pdf_path (disk w)) ;;
  match found with
  | Some doc => ret doc
  | None => raise (Exception ("no such file: '" ++ pdf_path ++ "'"))
  end.

(** Step 3, the branch [if existing_book:]. [existing_book] is what
    [find_one] returned. *)
Definition existing_book_branch (existing_book : MotorFuture)
  (title author_name user_id : string) : M IngestResult :=
  has_id <- lift (future_contains "id" existing_book) ;;
  book_id <- (if negb has_id
              then
                z <- uuid4 ;;
                oid <- lift (future_getitem existing_book "_id") ;;
                update_one (ByOid oid) (Operators (SetId (uuid_str z))) None ;;
                ret (uuid_str z)
              else lift (future_getitem existing_book "id")) ;;
  uploaded_by <- lift (future_get existing_book "uploaded_by" []) ;;
  (if negb (mem_string user_id uploaded_by)
   then update_one (ById book_id) (PlainId book_id)
                   (Some (Operators (AddToSetUploadedBy user_id))) ;;
        ret tt
   else ret tt) ;;
  ret (mkIngestResult book_id title author_name 0 (Some "existing")).

(** Steps 4 to 7, after the new record is inserted. *)
Definition ingest_new_book {H : Helpers} (doc : Document)
  (book_id title author_name : string) (batch_size workers : Z)
  : M IngestResult :=
  let collection_name := "pdf_chunks" in
  let pdf_dir := "pdfs" in
  let toc_tree := build_toc_tree (doc_toc doc) in
  let leaf_nodes := collect_leaf_nodes toc_tree in
  thread_pool workers ;;
  pdf_chunks <- lift (extraction_stage leaf_nodes doc pdf_dir book_id) ;;
  thread_pool workers ;;
  all_urls <- upload_all pdf_chunks (mkFileInfo book_id title author_name) ;;
  let valid_chunks := valid_chunks_of pdf_chunks all_urls in
  let texts := map ch_text valid_chunks in
  record (EmbedBatch (List.length texts)) ;;
  let vectors := embed_batch texts batch_size in
  points <- build_points book_id title author_name
                         (zip3 valid_chunks vectors all_urls) ;;
  upsert_loop collection_name batch_size points ;;
  update_one (ById book_id) (PlainId book_id)
             (Some (Operators (SetStatus "complete"))) ;;
  ret (mkIngestResult book_id title author_name (List.length points) None).

Definition process_pdf_task {H : Helpers} (pdf_path user_id : string)
  (batch_size workers : Z) : M IngestResult :=
  clients <- gets (fun w => embedder w && QDRANT_CLIENT w && B2_UPLOADER w) ;;
  if negb clients
  then raise (EnvironmentError
                "One or more global clients (Model, Qdrant, B2) are not initialized.")
  else
    on_disk <- gets (fun w => find_file pdf_path (disk w)) ;;
    match on_disk with
    | None => raise (FileNotFoundError (pdf_path ++ " not found."))
    | Some _ =>
        let collection_name := "pdf_chunks" in
        get_collections ;;
        existing <- get_collections ;;
        (if negb (mem_string collection_name existing)
         then create_collection collection_name
         else ret tt) ;;
        doc <- fitz_open pdf_path ;;
        match doc_toc doc with
        | [] => raise (ValueError "No Table of Contents found in PDF.")
        | _ :: _ =>
            let '(title, author_name) := extract_metadata doc in
            let pages := page_count doc in
            existing_book <- find_one (ByTitle title) ;;
            if future_truthy existing_book
            then existing_book_branch existing_book title author_name user_id
            else
              z <- uuid4 ;;
              let book_id := uuid_str z in
              now <- gets utcnow ;;
              insert_one (mkBook 0 (Some book_id) (Some title) (Some author_name)
                                 (Some pages) (Some "processing") (Some now)
                                 (Some [user_id])) ;;
              ingest_new_book doc book_id title author_name batch_size workers
        end
    end.

(** ** [delete_book_task] *)

Record DeleteResult : Type := mkDeleteResult {
  d_status : string;
  d_book_id : option string
}.

(** The body of [delete_book_task], over the objects the two cleanup names
    are bound to. *)
Definition delete_book_body (delete_qdrant_chunks_task delete_b2_pdfs_task : callable)
  (book_id user_id : string) : M DeleteResult :=
  find_one (ById book_id) ;;
  book <- find_one (ById book_id) ;;
  if negb (future_truthy book)
  then ret (mkDeleteResult "not_found" None)
  else
    uploaded_by <- lift (future_get book "uploaded_by" ([] : list string)) ;;
    if Nat.ltb 1 (List.length uploaded_by)
    then
      update_one (ById book_id) (PlainId book_id)
                 (Some (Operators (PullUploadedBy user_id))) ;;
      ret (mkDeleteResult "user_removed_only" (Some book_id))
    else
      delete_one (ById book_id) ;;
      delay delete_qdrant_chunks_task book_id ;;
      delete_one (ById book_id) ;;
      delay delete_qdrant_chunks_task book_id ;;
      delay delete_b2_pdfs_task book_id ;;
      ret (mkDeleteResult "fully_deleted" (Some book_id)).

Definition delete_book_task (book_id user_id : string) : M DeleteResult :=
  match lookup_global "delete_qdrant_chunks_task" module_defs,
        lookup_global "delete_b2_pdfs_task" module_defs with
  | Some delete_qdrant_chunks_task, Some delete_b2_pdfs_task =>
      delete_book_body delete_qdrant_chunks_task delete_b2_pdfs_task book_id user_id
  | _, _ => raise (Exception "name is not defined")
  end.

(** ** Retrieval and generation *)

(** An identifier as a search hit carries it. *)
Inductive pyid : Type :=
| IdInt (n : Z)
| IdStr (s : string).

(** A search hit, later a candidate context: a dict whose keys the tasks
    read with [.get]. The score may be absent, [None] or a number. *)
Record Context : Type := mkContext {
  c_id : option pyid;
  c_score : option (option Q);
  c_heading : option string;
  c_content : option string
}.

(** Values [json.loads] returns. *)
#[warnings="-register-all"] Inductive json : Type :=
| JNull
| JBool (b : bool)
| JNum (n : Z)
| JStr (s : string)
| JArr (l : list json)
| JObj (kv : list (string * json)).

(** What the retrieval tasks call outside [tasks.py]: the search helper of
    [app/helpers.py], the generation client, and the two library functions
    applied to its reply. A call that raises returns [inl]. *)
Class Externals : Type := {
  search_similar_in_book : list Q -> string -> Z -> exn + list Context;
  (* client_genai.models.generate_content: the text of the "model" part and
     of the "user" part in, response.text out *)
  generate_content : string -> string -> exn + string;
  (* re.sub(r"^```json\s*|```$", "", s, flags=re.MULTILINE) *)
  re_sub_fence : string -> string;
  json_loads : string -> exn + json
}.

(** [x.get('score', 0) or 0]. *)
Definition score_key (x : Context) : Q :=
  match c_score x with
  | Some (Some q) => if Qeq_bool q 0 then 0%Q else q
  | Some None => 0%Q
  | None => 0%Q
  end.

(** [list.sort(key=score_key, reverse=True)]: Python's sort is stable, also
    when reversed, so the outcome is the one of a stable insertion sort on
    descending keys. [x] enters before the first element whose key is not
    greater than its own. *)
Fixpoint insert_desc (x : Context) (l : list Context) : list Context :=
  match l with
  | [] => [x]
  | y :: r =>
      if negb (Qle_bool (score_key y) (score_key x))
      then y :: insert_desc x r
      else x :: y :: r
  end.

Definition sort_by_score_desc (l : list Context) : list Context :=
  fold_right insert_desc [] l.

Definition search_similar_in_books_task {E : Externals} (query_vec : list Q)
  (book_id : string) (top_k : Z) : list Context :=
  let all_results :=
    match search_similar_in_book query_vec book_id top_k with
    | inr found => found
    | inl _ => []
    end in
  sort_by_score_desc all_results.

(** *** Strings as the prompts build them *)

Definition nl : string := String (ascii_of_nat 10) EmptyString.
Definition dq : string := String (ascii_of_nat 34) EmptyString.

Definition str_of_nat (n : nat) : string := NilZero.string_of_uint (Nat.to_uint n).
Definition str_of_Z (z : Z) : string := NilZero.string_of_int (Z.to_int z).

Definition str_of_id (i : pyid) : string :=
  match i with
  | IdInt n => str_of_Z n
  | IdStr s => s
  end.

Fixpoint lstrip (s : string) : string :=
  match s with
  | EmptyString => EmptyString
  | String c r => if is_space c then lstrip r else s
  end.

Definition reverse_string (s : string) : string :=
  string_of_list_ascii (rev (list_ascii_of_string s)).

(** [s.strip()]. *)
Definition strip (s : string) : string :=
  reverse_string (lstrip (reverse_string (lstrip s))).

Definition get_or {A : Type} (o : option A) (default : A) : A :=
  match o with
  | Some a => a
  | None => default
  end.

(** [[f(i, c) for i, c in enumerate(l)]], counting from [i]. *)
Fixpoint enumerate_map {A B : Type} (f : nat -> A -> B) (i : nat) (l : list A)
  : list B :=
  match l with
  | [] => []
  | a :: r => f i a :: enumerate_map f (S i) r
  end.

(** One entry of [context_list]. *)
Definition context_entry (i : nat) (c : Context) : string :=
  let context_id :=
    match c_id c with
    | Some x => str_of_id x
    | None => "unknown_" ++ str_of_nat i
    end in
  let heading := get_or (c_heading c) "No heading" in
  let content := substring 0 500 (get_or (c_content c) EmptyString) in
  "ID: " ++ context_id ++ nl ++ "Heading: " ++ heading ++ nl
    ++ "Content: " ++ content ++ "..." ++ nl.

Definition selection_prompt (contexts : list Context) (user_query : string)
  : string :=
  let context_list := enumerate_map context_entry 0 contexts in
  let contexts_text := String.concat (nl ++ "---" ++ nl) context_list in
  nl ++ "    You are given " ++ str_of_nat (List.length contexts)
     ++ " context passages and a user query." ++ nl
     ++ "    Select the TOP 3 most relevant context passages." ++ nl ++ nl
     ++ "    USER QUERY: " ++ user_query ++ nl ++ nl
     ++ "    AVAILABLE CONTEXTS:" ++ nl
     ++ "    " ++ contexts_text ++ nl ++ nl
     ++ "    Respond with ONLY JSON:" ++ nl
     ++ "    {" ++ dq ++ "selected_ids" ++ dq ++ ": [" ++ dq ++ "id1" ++ dq ++ ", "
     ++ dq ++ "id2" ++ dq ++ ", " ++ dq ++ "id3" ++ dq ++ "]}" ++ nl
     ++ "    ".

(** *** Python operations on parsed JSON *)

Fixpoint dict_get (key : string) (kv : list (string * json)) : option json :=
  match kv with
  | [] => None
  | (k, v) :: r => if String.eqb k key then Some v else dict_get key r
  end.

(** [len(v)]. *)
Definition py_len (v : json) : exn + nat :=
  match v with
  | JArr l => inr (List.length l)
  | JStr s => inr (String.length s)
  | JObj kv => inr (List.length kv)
  | _ => inl (TypeError "object has no len()")
  end.

(** [v[:3]]. *)
Definition py_slice3 (v : json) : exn + json :=
  match v with
  | JArr l => inr (JArr (firstn 3 l))
  | JStr s => inr (JStr (substring 0 3 s))
  | _ => inl (TypeError "object is not subscriptable by a slice")
  end.

(** [c.get('id')] as a Python value. *)
Definition id_value (o : option pyid) : json :=
  match o with
  | None => JNull
  | Some (IdInt n) => JNum n
  | Some (IdStr s) => JStr s
  end.

(** [x == e] for an identifier value [x] and a parsed value [e]. *)
Definition id_eqb (x : option pyid) (e : json) : bool :=
  match x, e with
  | None, JNull => true
  | Some (IdInt n), JNum m => Z.eqb n m
  | Some (IdInt n), JBool b => Z.eqb n (if b then 1 else 0)
  | Some (IdStr s), JStr t => String.eqb s t
  | _, _ => false
  end.

Definition contains (sub s : string) : bool :=
  match index 0 sub s with
  | Some _ => true
  | None => match sub with EmptyString => true | _ => false end
  end.

(** [x in container]. *)
Definition py_in (x : option pyid) (container : json) : exn + bool :=
  match container with
  | JArr l => inr (existsb (id_eqb x) l)
  | JStr s =>
      match x with
      | Some (IdStr t) => inr (contains t s)
      | Some (IdInt _) =>
          inl (TypeError "'in <string>' requires string as left operand, not int")
      | None =>
          inl (TypeError "'in <string>' requires string as left operand, not NoneType")
      end
  | JObj kv =>
      match x with
      | Some (IdStr t) => inr (existsb (fun p => String.eqb (fst p) t) kv)
      | _ => inr false
      end
  | JNum _ => inl (TypeError "argument of type 'int' is not iterable")
  | JBool _ => inl (TypeError "argument of type 'bool' is not iterable")
  | JNull => inl (TypeError "argument of type 'NoneType' is not iterable")
  end.

(** *** The tasks *)

(** The body of the [try] block of [select_top_contexts_task]. *)
Definition select_with_model {E : Externals} (selection_prompt : string)
  : exn + json :=
  match generate_content "You are an expert at evaluating context relevance."
                         selection_prompt with
  | inl e => inl e
  | inr text =>
      let cleaned := strip (re_sub_fence (strip text)) in
      match json_loads cleaned with
      | inl e => inl e
      | inr (JObj kv) =>
          let selected_ids := get_or (dict_get "selected_ids" kv) (JArr []) in
          match py_len selected_ids with
          | inl e => inl e
          | inr n => if Nat.leb 3 n then py_slice3 selected_ids else inr selected_ids
          end
      | inr _ => inl (AttributeError "object has no attribute 'get'")
      end
  end.

(** The value the [except] clause returns: [[c.get('id') for c in contexts[:3]]]. *)
Definition first_three_ids (contexts : list Context) : json :=
  JArr (map (fun c => id_value (c_id c)) (firstn 3 contexts)).

Definition select_top_contexts_task {E : Externals} (contexts : list Context)
  (user_query : string) : json :=
  match select_with_model (selection_prompt contexts user_query) with
  | inr selected => selected
  | inl _ => first_three_ids contexts
  end.

(** [str(e)]. *)
Definition exn_message (e : exn) : string :=
  match e with
  | EnvironmentError m | FileNotFoundError m | ValueError m
  | AttributeError m | TypeError m | RuntimeError m | Exception m => m
  end.

Definition call_model_task {E : Externals} (full_prompt system_prompt : string)
  : string * string :=
  match generate_content system_prompt full_prompt with
  | inr text =>
      (strip text,
       "No reasoning available (Gemini API does not return reasoning steps)")
  | inl e => ("Error: " ++ exn_message e, "No reasoning available")
  end.

Record GenerateResult : Type := mkGenerateResult {
  g_answer : string;
  g_reasoning : string;
  g_selected_ids : json;
  g_selected_contexts : list Context
}.

(** [[c for c in contexts if c.get('id') in selected_ids]]. *)
Fixpoint filter_selected (selected_ids : json) (contexts : list Context)
  : exn + list Context :=
  match contexts with
  | [] => inr []
  | c :: r =>
      match py_in (c_id c) selected_ids with
      | inl e => inl e
      | inr keep =>
          match filter_selected selected_ids r with
          | inl e => inl e
          | inr kept => inr (if keep then c :: kept else kept)
          end
      end
  end.

Definition answer_prompt (selected_contexts : list Context) (user_query : string)
  : string :=
  let context_text :=
    String.concat (nl ++ nl)
      (map (fun c => "### " ++ get_or (c_heading c) EmptyString ++ nl
                       ++ get_or (c_content c) EmptyString)
           selected_contexts) in
  "Use the following context to answer the question." ++ nl ++ nl
    ++ context_text ++ nl ++ nl ++ "**User Question:** " ++ user_query.

Definition process_contexts_and_generate_task {E : Externals}
  (contexts : list Context) (user_query : string) : exn + GenerateResult :=
  let selection_contexts := firstn 10 contexts in
  let selected_ids := select_top_contexts_task contexts user_query in
  match filter_selected selected_ids contexts with
  | inl e => inl e
  | inr selected_contexts =>
      let full_prompt := answer_prompt selected_contexts user_query in
      let system_prompt :=
        "You are a knowledgeable AI assistant. Respond in clean Markdown with headings, bullet points, and summary." in
      let '(answer, reasoning) := call_model_task full_prompt system_prompt in
      inr (mkGenerateResult answer reasoning selected_ids selected_contexts)
  end.

(** ** Concrete helpers, worlds and documents

    An implementation of the helpers for flat outlines (every outline row a
    leaf), on which the tasks run to a value. *)

Definition page_text (doc : Document) (p : Z) : string :=
  nth (Z.to_nat (p - 1)) (doc_pages doc) EmptyString.

(** Text of the pages [start_page .. end_page - 1]; a page number below 1
    is refused. *)
Definition flat_extract_text (doc : Document) (start_page end_page : Z)
  : exn + string :=
  if (start_page <? 1)%Z then inl (ValueError "bad page number(s)")
  else inr (String.concat EmptyString
              (map (fun k => page_text doc (start_page + Z.of_nat k)%Z)
                   (seq 0 (Z.to_nat (end_page - start_page))))).

Definition flat_save_mini_pdf (doc : Document) (start_page end_page : Z)
  (pdf_dir book_id : string) : exn + (string * string) :=
  let pdf_filename :=
    book_id ++ "_" ++ str_of_Z start_page ++ "_" ++ str_of_Z end_page ++ ".pdf" in
  inr (pdf_dir ++ "/" ++ pdf_filename, pdf_filename).

Definition flat_helpers : Helpers :=
  {| toc_tree := list toc_entry;
     extract_metadata := doc_metadata;
     build_toc_tree := fun toc => toc;
     collect_leaf_nodes :=
       map (fun e => mkLeaf (te_title e) (te_page e) [te_title e]);
     extract_text_for_node := flat_extract_text;
     save_mini_pdf := flat_save_mini_pdf;
     b2_upload_one := fun _ filename _ => Some ("https://b2.example/" ++ filename);
     embed_batch := fun texts _ => map (fun _ => [0%Q]) texts |}.

Definition draws (n : nat) : Z := (Z.of_nat (S n) * 18446744073709551617)%Z.

(** All clients up, every store empty. *)
Definition fresh_world (files : list (string * Document)) : World :=
  mkWorld true true true files [] [] [] [] [] draws 0 0 0 [].

(** The embedding model failed to load; nothing on disk. *)
Definition cold_world : World :=
  mkWorld false true true [] [] [] [] [] [] draws 0 0 0 [].

Definition with_disk_books (files : list (string * Document))
  (books : list BookDoc) : World :=
  mkWorld true true true files ["pdf_chunks"] [] books [] [] draws 0
          (List.length books) 0 [].

Definition doc_no_toc : Document :=
  mkDoc [] 3 ("Untitled", "Nobody") ["a"; "b"; "c"].

Definition doc_atlas : Document :=
  mkDoc [mkToc 1 "Maps" 1; mkToc 1 "Index" 3] 4 ("Atlas", "Mercator")
        ["m1"; "m2"; "i1"; "i2"].


Definition book_atlas (owners : list string) : BookDoc :=
  mkBook 0 (Some "b1") (Some "Atlas") (Some "Mercator") (Some 4%Z)
         (Some "complete") (Some 0) (Some owners).

(** ** Page ranges of the leaves *)

(** The range [process_node(i)] computes for every leaf, in index order. *)
Definition leaf_ranges (leaf_nodes : list leaf_node) (doc_page_count : Z)
  : list (Z * Z) :=
  enumerate_map (section_bounds leaf_nodes doc_page_count) 0 leaf_nodes.

(** Page [p] lies in the half-open range [r]. *)
Definition in_range (p : Z) (r : Z * Z) : Prop := (fst r <= p < snd r)%Z.

(** The same ranges by recursion on the start pages: each range ends where
    the next one starts, the last one at [total_pages + 1]. *)
Fixpoint ranges_of (pages : list Z) (total_pages : Z) : list (Z * Z) :=
  match pages with
  | [] => []
  | s :: r =>
      (s, match r with
          | [] => (total_pages + 1)%Z
          | s' :: _ => s'
          end) :: ranges_of r total_pages
  end.

(** ** Outcome of the extraction loop *)



(** [a] may stand before [b] in a list sorted on descending score. *)
Definition score_ge (a b : Context) : Prop := (score_key b <= score_key a)%Q.

(** ** Scripted collaborators for the retrieval tasks *)

(** Collaborators that answer from a script: a fixed search outcome, a
    reply function for the generation client, a parser given as a
    function, and replies that carry no code fence. *)
Definition scripted (found : exn + list Context)
  (reply : string -> string -> exn + string) (loads : string -> exn + json)
  : Externals :=
  {| search_similar_in_book := fun _ _ _ => found;
     generate_content := reply;
     re_sub_fence := fun s => s;
     json_loads := loads |}.

Definition hit (n : Z) (score : option (option Q)) : Context :=
  mkContext (Some (IdInt n)) score (Some "heading") (Some "content").

(** Candidates with the identifiers "k1" .. "kn". *)
Definition candidates (n : nat) : list Context :=
  map (fun i => mkContext (Some (IdStr ("k" ++ str_of_nat i))) (Some (Some 1%Q))
                          (Some "heading") (Some "content"))
      (seq 1 n).

(** The reply [{"selected_ids": ["k11"]}]. *)
Definition reply_k11 : string :=
  "{" ++ dq ++ "selected_ids" ++ dq ++ ": [" ++ dq ++ "k11" ++ dq ++ "]}".

(** A parser for the two replies the scripts use. *)
Definition loads_script (s : string) : exn + json :=
  if String.eqb s "{}" then inr (JObj [])
  else if String.eqb s reply_k11 then inr (JObj [("selected_ids", JArr [JStr "k11"])])
  else inl (ValueError "Expecting value").

(** A generation collaborator that answers with the empty JSON object. *)
Definition replies_empty_object : Externals :=
  scripted (inr []) (fun _ _ => inr "{}") loads_script.

(** A generation collaborator that selects "k11" whenever the prompt lists
    that identifier. *)
Definition picks_k11_if_listed : Externals :=
  scripted (inr [])
           (fun _ prompt => if contains "ID: k11" prompt then inr reply_k11 else inr "{}")
           loads_script.

(** ** The world at the registry lookup *)

(** The world when step 3 of [process_pdf_task] has looked the title up:
    the collections were listed twice, ["pdf_chunks"] was created if it
    was absent, and one [find_one] by title is on the log. *)
Definition after_lookup (title : string) (w : World) : World :=
  let absent := negb (mem_string "pdf_chunks" (qdrant_collections w)) in
  with_calls
    (calls w ++ [QdrantGetCollections; QdrantGetCollections]
       ++ (if absent then [QdrantCreateCollection "pdf_chunks"] else [])
       ++ [MongoFindOne (ByTitle title)])%list
    (if absent
     then with_collections (qdrant_collections w ++ ["pdf_chunks"])%list w
     else w).

(** The points of the collection after one [upsert] of [points]. *)
Definition upserted (stored points : list Point) : list Point :=
  (List.filter (fun p => negb (has_point_id (pt_id p) points)) stored ++ points)%list.

(** ** The cleanup jobs

    [delete_qdrant_chunks_task] and [delete_b2_pdfs_task]. Whether a call
    on the vector store or on the object storage fails is not decided by
    the world: it is given from outside. The calls of the cleanup jobs are
    not entered in [calls]. *)

Class CleanupFaults : Type := {
  (* QDRANT_CLIENT.delete raising, for the world and the book at hand *)
  qdrant_delete_fault : World -> string -> option exn;
  (* B2_UPLOADER.list_files() raising *)
  b2_list_files_fault : option exn;
  (* B2_UPLOADER.delete_file raising for the file listed at this position *)
  b2_delete_file_fault : nat -> B2File -> option exn;
  (* B2_UPLOADER.delete_file raising when the file is already gone *)
  b2_delete_absent_fault : option exn
}.

(** The dict a cleanup job returns. *)
Record CleanupResult : Type := mkCleanupResult {
  cr_status : string;
  cr_book_id : option string;
  cr_error : option string;
  cr_deleted_count : option nat
}.

(** [QDRANT_CLIENT.delete(collection_name, FilterSelector(book_id == v))]. *)
Definition qdrant_delete {F : CleanupFaults} (book_id : string) : M unit :=
  fun w =>
    match qdrant_delete_fault w book_id with
    | Some e => (inl e, w)
    | None =>
        (inr tt,
         with_points
           (List.filter (fun p => negb (String.eqb (pt_book_id p) book_id))
                        (qdrant_points w))
           w)
    end.

(** The first [def delete_qdrant_chunks_task], the one under
    [@celery_app.task]: its body ends after the client check, so with a
    client it returns [None]. *)
Definition delete_qdrant_chunks_task_decorated (book_id : string)
  : M (option CleanupResult) :=
  client <- gets QDRANT_CLIENT ;;
  if negb client
  then ret (Some (mkCleanupResult "failed" None
                                  (Some "Qdrant client not initialized") None))
  else ret None.

(** The second [def delete_qdrant_chunks_task], the undecorated one. *)
Definition delete_qdrant_chunks_task {F : CleanupFaults} (book_id : string)
  : M CleanupResult :=
  client <- gets QDRANT_CLIENT ;;
  if negb client
  then ret (mkCleanupResult "failed" None (Some "Qdrant client not initialized") None)
  else
    fun w =>
      match qdrant_delete book_id w with
      | (inr _, w') => (inr (mkCleanupResult "success" (Some book_id) None None), w')
      | (inl e, w') =>
          (inr (mkCleanupResult "failed" None (Some (exn_message e)) None), w')
      end.

(** The loop of [delete_b2_pdfs_task] over the listing, from position [i]:
    the files that remain and [deleted_count]. For a file of the book,
    [delete_file] is called twice; the first call removes the file unless
    it fails, the second finds it gone; the count grows only when neither
    call raised. *)
Fixpoint b2_sweep {F : CleanupFaults} (book_id : string) (i : nat)
  (files : list B2File) : list B2File * nat :=
  match files with
  | [] => ([], 0)
  | f :: r =>
      let '(remaining, deleted_count) := b2_sweep book_id (S i) r in
      if String.eqb (fi_book_id (b2_file_info f)) book_id
      then
        match b2_delete_file_fault i f with
        | Some _ => (f :: remaining, deleted_count)
        | None =>
            match b2_delete_absent_fault with
            | Some _ => (remaining, deleted_count)
            | None => (remaining, S deleted_count)
            end
        end
      else (f :: remaining, deleted_count)
  end.

Definition delete_b2_pdfs_task {F : CleanupFaults} (book_id : string)
  : M CleanupResult :=
  client <- gets B2_UPLOADER ;;
  if negb client
  then ret (mkCleanupResult "failed" None (Some "B2 Uploader not initialized") None)
  else
    match b2_list_files_fault with
    | Some e => ret (mkCleanupResult "failed" None (Some (exn_message e)) None)
    | None =>
        files <- gets b2_files ;;
        let '(remaining, deleted_count) := b2_sweep book_id 0 files in
        modify (with_b2_files remaining) ;;
        ret (mkCleanupResult "success" (Some book_id) None (Some deleted_count))
    end.

(** What a worker runs for a cleanup job taken from the broker: the body
    registered under the task name, which for the vector purge is the
    decorated first definition. *)
Definition run_cleanup_job {F : CleanupFaults} (job : string * string)
  : M (option CleanupResult) :=
  let '(name, book_id) := job in
  if String.eqb name "delete_qdrant_chunks_task"
  then delete_qdrant_chunks_task_decorated book_id
  else if String.eqb name "delete_b2_pdfs_task"
  then r <- delete_b2_pdfs_task book_id ;; ret (Some r)
  else raise (Exception ("Received unregistered task of type '" ++ name ++ "'")).

(** A worker taking the jobs in order; a job that raises is marked failed
    and the worker goes on. *)
Fixpoint run_cleanup_jobs {F : CleanupFaults} (jobs : list (string * string))
  (w : World) : World :=
  match jobs with
  | [] => w
  | job :: r => run_cleanup_jobs r (snd (run_cleanup_job job w))
  end.

(** No call fails. *)
Definition no_faults : CleanupFaults :=
  {| qdrant_delete_fault := fun _ _ => None;
     b2_list_files_fault := None;
     b2_delete_file_fault := fun _ _ => None;
     b2_delete_absent_fault := None |}.

(** The first [delete_file] works; the repeated one finds the file gone and
    raises. *)
Definition repeat_delete_raises : CleanupFaults :=
  {| qdrant_delete_fault := fun _ _ => None;
     b2_list_files_fault := None;
     b2_delete_file_fault := fun _ _ => None;
     b2_delete_absent_fault := Some (Exception "File not present") |}.

Definition stored_file (name book_id : string) : B2File :=
  mkB2File name (mkFileInfo book_id "Atlas" "Mercator").

Definition stored_point (n : Z) (book_id : string) : Point :=
  mkPoint n [] "chunk" book_id "Atlas" "Mercator" 1 2 "heading" "path" "text" None.

(** Files of the book, files of other books. *)
Definition of_book (book_id : string) (f : B2File) : bool :=
  String.eqb (fi_book_id (b2_file_info f)) book_id.

(** ** What steps 5 and 6 are expected to leave in the stores *)

(** The results of the uploads, one per extracted chunk, in chunk order. *)
Definition upload_results {H : Helpers} (file_info : FileInfo)
  (pdf_chunks : list Chunk) : list (option string) :=
  map (fun c => b2_upload_one (ch_local_path c) (ch_filename c) file_info) pdf_chunks.

(** The assets stored by the uploads that returned a URL. *)
Definition uploaded_files {H : Helpers} (file_info : FileInfo)
  (pdf_chunks : list Chunk) : list B2File :=
  flat_map (fun c =>
              match b2_upload_one (ch_local_path c) (ch_filename c) file_info with
              | Some _ => [mkB2File (ch_filename c) file_info]
              | None => []
              end) pdf_chunks.

(** The ids of [m] points built from draw [n] on: every point takes two
    draws, the second one shifted right by 64 bits is its id. *)
Definition point_ids (draw : nat -> Z) (n m : nat) : list Z :=
  map (fun k => Z.shiftr (draw (n + 2 * k + 1)) 64) (seq 0 m).

(** The payload fields of a point that come from its chunk and its URL. *)
Definition payload_of_point (p : Point)
  : string * string * string * Z * Z * string * option string :=
  (pt_book_id p, pt_heading p, pt_path p, pt_start_page p, pt_end_page p,
   pt_content p, pt_source_pdf p).

Definition payload_of_triple (book_id : string)
  (t : Chunk * list Q * option string)
  : string * string * string * Z * Z * string * option string :=
  let '(chunk, _, url) := t in
  (book_id, ch_title chunk, ch_path chunk, ch_start_page chunk, ch_end_page chunk,
   ch_text chunk, url).

(** * Properties *)

(** ** Ingestion: the guards of [process_pdf_task] *)

#[local] Arguments mem_string : simpl never.

Ltac run_task :=
  unfold bind, gets, modify, ret, raise, record, lift; cbn.

Ltac run_quietly :=
  unfold bind, gets, modify, ret, raise, record, lift; cbn -[Nat.ltb].

(** C10 (amended): when [pdf_path] is not on disk the task raises and leaves
    the whole world as it found it, the log of store calls included: no
    collection is listed or created, no registry record is read, inserted
    or updated. The exception is [FileNotFoundError] when the three global
    clients are initialised and [EnvironmentError] when one of them is
    not. *)
Theorem missing_file_raises_before_any_store_call :
  forall (H : Helpers) (w : World) (pdf_path user_id : string)
         (batch_size workers : Z),
    find_file pdf_path (disk w) = None ->
    process_pdf_task pdf_path user_id batch_size workers w =
      (inl (if embedder w && QDRANT_CLIENT w && B2_UPLOADER w
            then FileNotFoundError (pdf_path ++ " not found.")
            else EnvironmentError
                   "One or more global clients (Model, Qdrant, B2) are not initialized."),
       w).
Proof.
  intros H w pdf_path user_id batch_size workers Hmissing.
  unfold process_pdf_task. run_task.
  destruct (embedder w && QDRANT_CLIENT w && B2_UPLOADER w); cbn.
  - rewrite Hmissing. reflexivity.
  - reflexivity.
Qed.

(** The theorem at a world with running clients and an empty disk. *)
Lemma missing_file_raises_before_any_store_call_witness :
  process_pdf_task (H := flat_helpers) "missing.pdf" "u1" 50 6 (fresh_world []) =
    (inl (FileNotFoundError "missing.pdf not found."), fresh_world []).
Proof.
  exact (missing_file_raises_before_any_store_call flat_helpers (fresh_world [])
           "missing.pdf" "u1" 50%Z 6%Z eq_refl).
Defined.

(** C10 as stated fails: with the embedding model not loaded and the file
    absent, the exception is [EnvironmentError], not [FileNotFoundError]. *)
Lemma missing_file_with_cold_clients_is_environment_error :
  find_file "missing.pdf" (disk cold_world) = None /\
  ~ (exists msg,
       fst (process_pdf_task (H := flat_helpers) "missing.pdf" "u1" 50 6 cold_world)
       = inl (FileNotFoundError msg)).
Proof.
  split; [reflexivity |].
  intros [msg Hmsg]. vm_compute in Hmsg. discriminate Hmsg.
Qed.

(** C9 (amended): with the clients initialised and the file on disk, an
    empty outline makes the task raise [ValueError("No Table of Contents
    found in PDF.")] before any registry, object-storage or point write and
    before any job is sent; step 1 has run by then, so the vector store has
    been listed twice and the collection ["pdf_chunks"] created if it was
    absent. *)
Theorem empty_outline_raises_after_collection_setup :
  forall (H : Helpers) (w : World) (pdf_path user_id : string)
         (batch_size workers : Z) (doc : Document),
    embedder w && QDRANT_CLIENT w && B2_UPLOADER w = true ->
    find_file pdf_path (disk w) = Some doc ->
    doc_toc doc = [] ->
    let out := process_pdf_task pdf_path user_id batch_size workers w in
    let absent := negb (mem_string "pdf_chunks" (qdrant_collections w)) in
    fst out = inl (ValueError "No Table of Contents found in PDF.") /\
    books_collection (snd out) = books_collection w /\
    b2_files (snd out) = b2_files w /\
    qdrant_points (snd out) = qdrant_points w /\
    celery_queue (snd out) = celery_queue w /\
    qdrant_collections (snd out) =
      (if absent then qdrant_collections w ++ ["pdf_chunks"] else qdrant_collections w)%list /\
    calls (snd out) =
      (calls w ++ [QdrantGetCollections; QdrantGetCollections]
         ++ (if absent then [QdrantCreateCollection "pdf_chunks"] else []))%list.
Proof.
  intros H w pdf_path user_id batch_size workers doc Hclients Hfile Htoc out absent.
  subst out absent.
  unfold process_pdf_task, get_collections, create_collection, fitz_open.
  run_task. rewrite Hclients. cbn. rewrite Hfile. cbn.
  destruct (mem_string "pdf_chunks" (qdrant_collections w)) eqn:Hmem; cbn;
    rewrite Hfile; cbn; rewrite Htoc; cbn;
    repeat split; try reflexivity;
    repeat rewrite <- app_assoc; reflexivity.
Qed.

(** The theorem at a file without outline in a world of empty stores. *)
Lemma empty_outline_raises_after_collection_setup_witness :
  fst (process_pdf_task (H := flat_helpers) "blank.pdf" "u1" 50 6
         (fresh_world [("blank.pdf", doc_no_toc)]))
    = inl (ValueError "No Table of Contents found in PDF.") /\
  books_collection
    (snd (process_pdf_task (H := flat_helpers) "blank.pdf" "u1" 50 6
            (fresh_world [("blank.pdf", doc_no_toc)])))
    = [].
Proof.
  destruct (empty_outline_raises_after_collection_setup flat_helpers
              (fresh_world [("blank.pdf", doc_no_toc)]) "blank.pdf" "u1" 50%Z 6%Z
              doc_no_toc eq_refl eq_refl eq_refl) as (Hraise & Hbooks & _).
  split; [exact Hraise | exact Hbooks].
Defined.

(** C9 as stated fails: on a vector store without the collection, the
    empty-outline failure comes after [create_collection], a write to the
    vector store. *)
Lemma empty_outline_failure_follows_a_vector_store_write :
  doc_toc doc_no_toc = [] /\
  qdrant_collections (fresh_world [("blank.pdf", doc_no_toc)]) = [] /\
  fst (process_pdf_task (H := flat_helpers) "blank.pdf" "u1" 50 6
         (fresh_world [("blank.pdf", doc_no_toc)]))
    = inl (ValueError "No Table of Contents found in PDF.") /\
  qdrant_collections
    (snd (process_pdf_task (H := flat_helpers) "blank.pdf" "u1" 50 6
            (fresh_world [("blank.pdf", doc_no_toc)])))
    = ["pdf_chunks"] /\
  calls
    (snd (process_pdf_task (H := flat_helpers) "blank.pdf" "u1" 50 6
            (fresh_world [("blank.pdf", doc_no_toc)])))
    = [QdrantGetCollections; QdrantGetCollections;
       QdrantCreateCollection "pdf_chunks"].
Proof. vm_compute. repeat split. Qed.

(** ** Ingestion: the registry lookup *)

(** C2 (the code departs from it): the title "Atlas" is stored with
    [uploaded_by = ["u1"]]; ingesting a file of that title as "u2" does not
    return the ["existing"] result. [find_one] returns a pending Future,
    the test ["id" not in existing_book] iterates it and raises
    [RuntimeError]; "u2" is not added, the registry still lists "u1"
    alone, and the one call made on the registry is that [find_one]. *)
Theorem existing_title_new_uploader_raises :
  fst (process_pdf_task (H := flat_helpers) "atlas.pdf" "u2" 50 6
         (with_disk_books [("atlas.pdf", doc_atlas)] [book_atlas ["u1"]]))
    = inl (RuntimeError "await wasn't used with future") /\
  books_collection
    (snd (process_pdf_task (H := flat_helpers) "atlas.pdf" "u2" 50 6
            (with_disk_books [("atlas.pdf", doc_atlas)] [book_atlas ["u1"]])))
    = [book_atlas ["u1"]] /\
  calls
    (snd (process_pdf_task (H := flat_helpers) "atlas.pdf" "u2" 50 6
            (with_disk_books [("atlas.pdf", doc_atlas)] [book_atlas ["u1"]])))
    = [QdrantGetCollections; QdrantGetCollections; MongoFindOne (ByTitle "Atlas")].
Proof. vm_compute. repeat split. Qed.

(** ** Deletion *)

(** The name the deletion task dispatches the vector purge through is bound
    to the undecorated second [def]. *)
Lemma vector_purge_name_is_a_plain_function :
  lookup_global "delete_qdrant_chunks_task" module_defs
    = Some (PlainFunction "delete_qdrant_chunks_task") /\
  lookup_global "delete_b2_pdfs_task" module_defs
    = Some (CeleryTask "delete_b2_pdfs_task").
Proof. split; reflexivity. Qed.

(** C1 (the code departs from it): "b1" is stored with
    [uploaded_by = ["u1"]] and "u1" asks for its deletion. The task reads
    the registry twice, gets a pending Future, and fails with
    [AttributeError] on [book.get]: the record is not deleted, no job is
    sent, and ["fully_deleted"] is not returned. *)
Theorem delete_sole_owner_does_not_send_one_vector_purge :
  fst (delete_book_task "b1" "u1" (with_disk_books [] [book_atlas ["u1"]]))
    = inl (AttributeError "'_asyncio.Future' object has no attribute 'get'") /\
  books_collection
    (snd (delete_book_task "b1" "u1" (with_disk_books [] [book_atlas ["u1"]])))
    = [book_atlas ["u1"]] /\
  celery_queue
    (snd (delete_book_task "b1" "u1" (with_disk_books [] [book_atlas ["u1"]])))
    = [] /\
  calls
    (snd (delete_book_task "b1" "u1" (with_disk_books [] [book_atlas ["u1"]])))
    = [MongoFindOne (ById "b1"); MongoFindOne (ById "b1")].
Proof. vm_compute. repeat split. Qed.

(** C8 (the code departs from it): "b1" is stored with
    [uploaded_by = ["u1"; "u2"]] and "u1" asks for its deletion. The task
    fails with [AttributeError] on [book.get] instead of returning
    ["user_removed_only"], and "u1" is still listed; the part of the
    statement that holds is that the record stays and that no purge job is
    sent. *)
Theorem delete_shared_book_leaves_requester_listed :
  fst (delete_book_task "b1" "u1" (with_disk_books [] [book_atlas ["u1"; "u2"]]))
    = inl (AttributeError "'_asyncio.Future' object has no attribute 'get'") /\
  books_collection
    (snd (delete_book_task "b1" "u1" (with_disk_books [] [book_atlas ["u1"; "u2"]])))
    = [book_atlas ["u1"; "u2"]] /\
  celery_queue
    (snd (delete_book_task "b1" "u1" (with_disk_books [] [book_atlas ["u1"; "u2"]])))
    = [] /\
  calls
    (snd (delete_book_task "b1" "u1" (with_disk_books [] [book_atlas ["u1"; "u2"]])))
    = [MongoFindOne (ById "b1"); MongoFindOne (ById "b1")].
Proof. vm_compute. repeat split. Qed.

(** ** Page ranges of the leaves *)

Lemma enumerate_section_bounds :
  forall (T : Z) (l pre : list leaf_node),
    enumerate_map (section_bounds (pre ++ l) T) (List.length pre) l
      = ranges_of (map ln_page l) T.
Proof.
  intros T l. induction l as [| node r IH]; intros pre; [reflexivity |].
  cbn [enumerate_map map ranges_of]. f_equal.
  - unfold section_bounds. f_equal.
    rewrite length_app. cbn [List.length].
    destruct r as [| nxt r'].
    + cbn [List.length map].
      replace (List.length pre + 1 <? List.length pre + 1) with false
        by (symmetry; apply Nat.ltb_ge; lia).
      reflexivity.
    + cbn [List.length map].
      replace (List.length pre + 1 <? List.length pre + S (S (List.length r')))
        with true by (symmetry; apply Nat.ltb_lt; lia).
      rewrite app_nth2 by lia.
      replace (List.length pre + 1 - List.length pre) with 1 by lia.
      reflexivity.
  - specialize (IH (pre ++ [node])%list).
    rewrite <- app_assoc in IH. cbn [app] in IH.
    rewrite length_app in IH. cbn [List.length] in IH.
    replace (List.length pre + 1) with (S (List.length pre)) in IH by lia.
    exact IH.
Qed.

Lemma leaf_ranges_by_recursion :
  forall (leaf_nodes : list leaf_node) (T : Z),
    leaf_ranges leaf_nodes T = ranges_of (map ln_page leaf_nodes) T.
Proof.
  intros leaf_nodes T. unfold leaf_ranges.
  exact (enumerate_section_bounds T leaf_nodes []).
Qed.

Lemma ranges_of_starts :
  forall (pages : list Z) (T : Z), map fst (ranges_of pages T) = pages.
Proof.
  intros pages T. induction pages as [| s r IH]; [reflexivity |].
  cbn. f_equal. exact IH.
Qed.

Lemma sorted_head_le_last :
  forall (r : list Z) (s d : Z),
    StronglySorted Z.le (s :: r) -> (s <= last (s :: r) d)%Z.
Proof.
  intros r. induction r as [| s' r' IH]; intros s d Hs.
  - cbn. lia.
  - inversion Hs as [| ? ? Hr Hall]; subst.
    inversion Hall as [| ? ? Hle _]; subst.
    specialize (IH s' d Hr).
    change (last (s :: s' :: r') d) with (last (s' :: r') d). lia.
Qed.

Lemma ranges_of_disjoint :
  forall (pages : list Z) (T : Z),
    StronglySorted Z.le pages ->
    ForallOrdPairs (fun a b => forall p, ~ (in_range p a /\ in_range p b))
                   (ranges_of pages T).
Proof.
  intros pages T. induction pages as [| s r IH]; intros Hs.
  - constructor.
  - inversion Hs as [| ? ? Hr Hall]; subst.
    cbn [ranges_of]. constructor; [| exact (IH Hr)].
    apply Forall_forall. intros b Hb p [Ha Hpb].
    assert (Hstart : In (fst b) r).
    { rewrite <- (ranges_of_starts r T). apply in_map. exact Hb. }
    unfold in_range in Ha, Hpb. cbn [fst snd] in Ha.
    destruct r as [| s' r']; [contradiction |].
    inversion Hr as [| ? ? _ Hall']; subst.
    destruct Hstart as [Heq | Hin].
    + lia.
    + rewrite Forall_forall in Hall'. specialize (Hall' _ Hin). lia.
Qed.

Lemma ranges_of_cover :
  forall (r : list Z) (s T : Z),
    StronglySorted Z.le (s :: r) ->
    (last (s :: r) 0%Z <= T + 1)%Z ->
    forall p,
      (exists x, In x (ranges_of (s :: r) T) /\ in_range p x) <-> (s <= p <= T)%Z.
Proof.
  intros r. induction r as [| s' r' IH]; intros s T Hs Hlast p.
  - cbn. unfold in_range. split.
    + intros [x [[Hx | []] Hp]]. subst x. cbn in Hp. lia.
    + intros Hp. exists (s, (T + 1)%Z). split; [left; reflexivity | cbn; lia].
  - inversion Hs as [| ? ? Hr Hall]; subst.
    inversion Hall as [| ? ? Hle _]; subst.
    change (last (s :: s' :: r') 0%Z) with (last (s' :: r') 0%Z) in Hlast.
    pose proof (sorted_head_le_last r' s' 0%Z Hr) as Hhead.
    specialize (IH s' T Hr Hlast p).
    change (ranges_of (s :: s' :: r') T) with ((s, s') :: ranges_of (s' :: r') T).
    split.
    + intros [x [[Hx | Hx] Hp]].
      * subst x. unfold in_range in Hp. cbn in Hp. lia.
      * assert (Hp' : (s' <= p <= T)%Z) by (apply IH; exists x; split; assumption).
        lia.
    + intros Hp. destruct (Z_lt_le_dec p s') as [Hlt | Hge].
      * exists (s, s'). split; [left; reflexivity | unfold in_range; cbn; lia].
      * destruct IH as [_ IH]. destruct (IH (conj Hge (proj2 Hp))) as [x [Hx Hpx]].
        exists x. split; [right; exact Hx | exact Hpx].
Qed.

Lemma ranges_of_nth :
  forall (pages : list Z) (T : Z) (i : nat) (s : Z),
    nth_error pages i = Some s ->
    nth_error (ranges_of pages T) i =
      Some (s, match nth_error pages (S i) with
               | Some s' => s'
               | None => (T + 1)%Z
               end).
Proof.
  intros pages T. induction pages as [| s0 r IH]; intros i s Hi.
  - destruct i; discriminate Hi.
  - destruct i as [| i'].
    + cbn in Hi. injection Hi as ->. cbn. destruct r; reflexivity.
    + cbn in Hi. cbn [ranges_of nth_error]. exact (IH i' s Hi).
Qed.

Lemma leaf_ranges_nth :
  forall (leaf_nodes : list leaf_node) (T : Z) (i : nat),
    nth_error (leaf_ranges leaf_nodes T) i =
      option_map
        (fun node =>
           (ln_page node,
            match nth_error leaf_nodes (S i) with
            | Some next => ln_page next
            | None => (T + 1)%Z
            end))
        (nth_error leaf_nodes i).
Proof.
  intros leaf_nodes T i. rewrite leaf_ranges_by_recursion.
  destruct (nth_error leaf_nodes i) as [node |] eqn:Hi; cbn [option_map].
  - rewrite (ranges_of_nth (map ln_page leaf_nodes) T i (ln_page node)
               (map_nth_error ln_page i leaf_nodes Hi)).
    rewrite nth_error_map.
    destruct (nth_error leaf_nodes (S i)); reflexivity.
  - apply nth_error_None. apply nth_error_None in Hi.
    assert (Hlen : forall pages, List.length (ranges_of pages T) = List.length pages).
    { induction pages as [| s r IH]; [reflexivity | cbn; f_equal; exact IH]. }
    rewrite Hlen, length_map. exact Hi.
Qed.

(** C3 (amended): for every outline and every position [i], the range
    [process_node] computes for leaf [i] starts at the leaf's page and ends
    where leaf [i + 1] starts, the last leaf ending at [total_pages + 1].
    When moreover the leaves' start pages are non-decreasing in traversal
    order and the last leaf starts no later than page [total_pages + 1],
    the ranges are pairwise disjoint and their union is exactly the pages
    from the first leaf's start to [total_pages]. *)
Theorem leaf_ranges_partition_sorted_outline :
  (forall (leaf_nodes : list leaf_node) (T : Z) (i : nat),
      nth_error (leaf_ranges leaf_nodes T) i =
        option_map
          (fun node =>
             (ln_page node,
              match nth_error leaf_nodes (S i) with
              | Some next => ln_page next
              | None => (T + 1)%Z
              end))
          (nth_error leaf_nodes i)) /\
  (forall (first : leaf_node) (rest : list leaf_node) (T : Z),
      Sorted Z.le (map ln_page (first :: rest)) ->
      (last (map ln_page (first :: rest)) 0 <= T + 1)%Z ->
      ForallOrdPairs (fun a b => forall p, ~ (in_range p a /\ in_range p b))
                     (leaf_ranges (first :: rest) T) /\
      (forall p,
          (exists x, In x (leaf_ranges (first :: rest) T) /\ in_range p x)
          <-> (ln_page first <= p <= T)%Z)).
Proof.
  split; [exact leaf_ranges_nth |].
  intros first rest T Hsorted Hlast.
  assert (Hstrong : StronglySorted Z.le (map ln_page (first :: rest))).
  { apply Sorted_StronglySorted; [| exact Hsorted].
    intros a b c Hab Hbc. exact (Z.le_trans a b c Hab Hbc). }
  rewrite leaf_ranges_by_recursion.
  split.
  - apply ranges_of_disjoint. exact Hstrong.
  - cbn [map] in *. apply ranges_of_cover; assumption.
Qed.

(** The theorem at the leaves "A.1" (page 2) and "B" (page 5) of an
    8-page file: the ranges are [2, 5) and [5, 9). *)
Lemma leaf_ranges_partition_sorted_outline_witness :
  leaf_ranges [mkLeaf "A.1" 2 ["A"; "A.1"]; mkLeaf "B" 5 ["B"]] 8 = [(2, 5); (5, 9)]%Z /\
  (forall p,
      (exists x,
          In x (leaf_ranges [mkLeaf "A.1" 2 ["A"; "A.1"]; mkLeaf "B" 5 ["B"]] 8)
          /\ in_range p x)
      <-> (2 <= p <= 8)%Z).
Proof.
  split; [reflexivity |].
  refine (proj2 (proj2 leaf_ranges_partition_sorted_outline
                   (mkLeaf "A.1" 2 ["A"; "A.1"]) [mkLeaf "B" 5 ["B"]] 8%Z _ _)).
  - repeat constructor. cbn. lia.
  - cbn. lia.
Defined.

(** C3 as stated fails for an outline whose rows are not in page order.
    Leaves starting at pages 5 and 2 of an 8-page file get the ranges
    [5, 2) and [2, 9): page 2 is covered although it lies before the first
    leaf's start. Leaves starting at 1, 5 and 3 of a 10-page file get
    [1, 5), [5, 3) and [3, 11): page 3 is covered twice. It also fails
    when the last leaf starts beyond the file: leaves starting at 1 and 20
    of an 8-page file are in page order and get [1, 20) and [20, 9), so
    page 10 is covered although the file ends at page 8. *)
Lemma unordered_outline_breaks_the_partition :
  leaf_ranges [mkLeaf "A" 5 ["A"]; mkLeaf "B" 2 ["B"]] 8 = [(5, 2); (2, 9)]%Z /\
  ~ (forall p,
        (exists x,
            In x (leaf_ranges [mkLeaf "A" 5 ["A"]; mkLeaf "B" 2 ["B"]] 8)
            /\ in_range p x)
        <-> (5 <= p <= 8)%Z) /\
  leaf_ranges [mkLeaf "A" 1 ["A"]; mkLeaf "B" 5 ["B"]; mkLeaf "C" 3 ["C"]] 10
    = [(1, 5); (5, 3); (3, 11)]%Z /\
  ~ ForallOrdPairs (fun a b => forall p, ~ (in_range p a /\ in_range p b))
      (leaf_ranges [mkLeaf "A" 1 ["A"]; mkLeaf "B" 5 ["B"]; mkLeaf "C" 3 ["C"]] 10) /\
  Sorted Z.le (map ln_page [mkLeaf "A" 1 ["A"]; mkLeaf "B" 20 ["B"]]) /\
  leaf_ranges [mkLeaf "A" 1 ["A"]; mkLeaf "B" 20 ["B"]] 8 = [(1, 20); (20, 9)]%Z /\
  ~ (forall p,
        (exists x,
            In x (leaf_ranges [mkLeaf "A" 1 ["A"]; mkLeaf "B" 20 ["B"]] 8)
            /\ in_range p x)
        <-> (1 <= p <= 8)%Z).
Proof.
  split; [reflexivity |]. split; [| split; [reflexivity |]].
  - intros Hcover.
    assert (Hpage : (5 <= 2 <= 8)%Z).
    { apply Hcover. exists (2, 9)%Z. split.
      - right. left. reflexivity.
      - unfold in_range. cbn. lia. }
    lia.
  - split; [| split; [| split; [reflexivity |]]].
    + intros Hpairs.
      inversion Hpairs as [| a l Hfirst _]; subst.
      inversion Hfirst as [| b l' _ Hrest]; subst.
      inversion Hrest as [| c l'' Hthird _]; subst.
      apply (Hthird 3%Z). unfold in_range. cbn. lia.
    + repeat constructor. cbn. lia.
    + intros Hcover.
      assert (Hpage : (1 <= 10 <= 8)%Z).
      { apply Hcover. exists (1, 20)%Z. split.
        - left. reflexivity.
        - unfold in_range. cbn. lia. }
      lia.
Qed.

(** ** Ingestion: the extraction fan-out *)







(** ** Retrieval: the vector search task *)

Lemma insert_desc_perm :
  forall (x : Context) (l : list Context), Permutation (x :: l) (insert_desc x l).
Proof.
  intros x l. induction l as [| y r IH]; cbn.
  - apply Permutation_refl.
  - destruct (negb (Qle_bool (score_key y) (score_key x))).
    + apply perm_trans with (y :: x :: r); [apply perm_swap |].
      apply perm_skip. exact IH.
    + apply Permutation_refl.
Qed.

Lemma sort_by_score_desc_perm :
  forall l : list Context, Permutation l (sort_by_score_desc l).
Proof.
  induction l as [| x r IH]; cbn.
  - apply perm_nil.
  - apply perm_trans with (x :: sort_by_score_desc r).
    + apply perm_skip. exact IH.
    + apply insert_desc_perm.
Qed.

Lemma insert_desc_sorted :
  forall (x : Context) (l : list Context),
    StronglySorted score_ge l -> StronglySorted score_ge (insert_desc x l).
Proof.
  intros x l. induction l as [| y r IH]; intros Hs; cbn.
  - constructor; constructor.
  - inversion Hs as [| ? ? Hr Hall]; subst.
    destruct (Qle_bool (score_key y) (score_key x)) eqn:Hle; cbn.
    + apply Qle_bool_iff in Hle.
      constructor; [exact Hs |].
      constructor; [exact Hle |].
      apply Forall_forall. intros z Hz.
      rewrite Forall_forall in Hall. specialize (Hall z Hz).
      unfold score_ge in *. apply Qle_trans with (score_key y); assumption.
    + assert (Hlt : (score_key x < score_key y)%Q).
      { apply Qnot_le_lt. intros Hc. apply Qle_bool_iff in Hc. congruence. }
      constructor; [exact (IH Hr) |].
      apply (Permutation_Forall (insert_desc_perm x r)).
      constructor; [| exact Hall].
      unfold score_ge. apply Qlt_le_weak. exact Hlt.
Qed.

Lemma sort_by_score_desc_sorted :
  forall l : list Context, StronglySorted score_ge (sort_by_score_desc l).
Proof.
  induction l as [| x r IH]; cbn.
  - constructor.
  - apply insert_desc_sorted. exact IH.
Qed.

(** Inserting [x] does not move it past an element with an equal score. *)
Lemma insert_desc_keeps_ties :
  forall (k : Q) (x : Context) (l : list Context),
    List.filter (fun c => Qeq_bool (score_key c) k) (insert_desc x l) =
      if Qeq_bool (score_key x) k
      then x :: List.filter (fun c => Qeq_bool (score_key c) k) l
      else List.filter (fun c => Qeq_bool (score_key c) k) l.
Proof.
  intros k x l. induction l as [| y r IH].
  - cbn. destruct (Qeq_bool (score_key x) k); reflexivity.
  - cbn [insert_desc].
    destruct (Qle_bool (score_key y) (score_key x)) eqn:Hle; cbn [negb].
    + cbn [List.filter]. destruct (Qeq_bool (score_key x) k); reflexivity.
    + cbn [List.filter]. rewrite IH.
      destruct (Qeq_bool (score_key y) k) eqn:Hy;
        destruct (Qeq_bool (score_key x) k) eqn:Hx; try reflexivity.
      exfalso.
      apply Qeq_bool_iff in Hy. apply Qeq_bool_iff in Hx.
      assert (Hc : Qle_bool (score_key y) (score_key x) = true).
      { apply Qle_bool_iff. rewrite Hy, Hx. apply Qle_refl. }
      congruence.
Qed.

Lemma sort_by_score_desc_stable :
  forall (k : Q) (l : list Context),
    List.filter (fun c => Qeq_bool (score_key c) k) (sort_by_score_desc l) =
      List.filter (fun c => Qeq_bool (score_key c) k) l.
Proof.
  intros k l. induction l as [| x r IH]; [reflexivity |].
  cbn [sort_by_score_desc fold_right].
  rewrite insert_desc_keeps_ties. fold (sort_by_score_desc r). rewrite IH.
  cbn [List.filter]. reflexivity.
Qed.

(** C4: whatever the search helper raises, the task returns the empty list;
    what the helper returns comes back as a permutation sorted on
    descending sort key, and hits of equal key keep the order they arrived
    in. The sort key of a hit is its score when the score is a number, and
    0 when the score is missing or null. Hits 1, 2, 3 with scores 0.8,
    null, 0.9 come back as 3, 1, 2. *)
Theorem search_absorbs_errors_and_sorts_stably :
  (forall (E : Externals) (query_vec : list Q) (book_id : string) (top_k : Z),
      match search_similar_in_book query_vec book_id top_k with
      | inl _ => search_similar_in_books_task query_vec book_id top_k = []
      | inr found =>
          Permutation found (search_similar_in_books_task query_vec book_id top_k) /\
          StronglySorted (fun a b => (score_key b <= score_key a)%Q)
                         (search_similar_in_books_task query_vec book_id top_k) /\
          (forall k : Q,
              List.filter (fun c => Qeq_bool (score_key c) k)
                          (search_similar_in_books_task query_vec book_id top_k)
              = List.filter (fun c => Qeq_bool (score_key c) k) found)
      end) /\
  (forall i h c, score_key (mkContext i None h c) = 0%Q
                 /\ score_key (mkContext i (Some None) h c) = 0%Q) /\
  (forall i q h c, (score_key (mkContext i (Some (Some q)) h c) == q)%Q) /\
  map c_id
    (search_similar_in_books_task
       (E := scripted (inr [hit 1 (Some (Some (8 # 10)%Q)); hit 2 (Some None);
                            hit 3 (Some (Some (9 # 10)%Q))])
                      (fun _ _ => inr EmptyString) loads_script)
       [] "b1" 3)
  = [Some (IdInt 3); Some (IdInt 1); Some (IdInt 2)].
Proof.
  split; [| split; [| split]].
  - intros E query_vec book_id top_k. unfold search_similar_in_books_task.
    destruct (search_similar_in_book query_vec book_id top_k) as [e | found].
    + reflexivity.
    + split; [apply sort_by_score_desc_perm |].
      split; [apply sort_by_score_desc_sorted | intros k; apply sort_by_score_desc_stable].
  - intros i h c. split; reflexivity.
  - intros i q h c. unfold score_key. cbn [c_score].
    destruct (Qeq_bool q 0) eqn:Hzero.
    + apply Qeq_bool_iff in Hzero. symmetry. exact Hzero.
    + apply Qeq_refl.
  - vm_compute. reflexivity.
Qed.

(** ** Retrieval: context selection *)

(** C5 (amended): when the generation call raises, when the cleaned reply
    does not parse, or when it parses to something that is not a JSON
    object, the selection is the identifiers of the first three candidates
    in input order, and nothing is raised. When the reply parses to an
    object without the key ["selected_ids"], the selection is the empty
    list. *)
Theorem selection_falls_back_to_first_three :
  forall (E : Externals) (contexts : list Context) (user_query : string),
    match generate_content "You are an expert at evaluating context relevance."
                           (selection_prompt contexts user_query) with
    | inl _ =>
        select_top_contexts_task contexts user_query
          = JArr (map (fun c => id_value (c_id c)) (firstn 3 contexts))
    | inr text =>
        match json_loads (strip (re_sub_fence (strip text))) with
        | inl _ =>
            select_top_contexts_task contexts user_query
              = JArr (map (fun c => id_value (c_id c)) (firstn 3 contexts))
        | inr (JObj kv) =>
            match dict_get "selected_ids" kv with
            | None => select_top_contexts_task contexts user_query = JArr []
            | Some _ => True
            end
        | inr _ =>
            select_top_contexts_task contexts user_query
              = JArr (map (fun c => id_value (c_id c)) (firstn 3 contexts))
        end
    end.
Proof.
  intros E contexts user_query.
  unfold select_top_contexts_task, select_with_model, first_three_ids.
  destruct (generate_content "You are an expert at evaluating context relevance."
              (selection_prompt contexts user_query)) as [e | text];
    [reflexivity |].
  destruct (json_loads (strip (re_sub_fence (strip text)))) as [e | parsed];
    [reflexivity |].
  destruct parsed as [| b | n | s | l | kv]; try reflexivity.
  destruct (dict_get "selected_ids" kv); [exact I | reflexivity].
Qed.

(** C5 as stated fails on a reply without the key: the collaborator answers
    [{}], which parses to an object with no ["selected_ids"], and the
    selection over four candidates is empty instead of "k1", "k2", "k3". *)
Lemma reply_without_key_selects_nothing :
  generate_content (Externals := replies_empty_object)
    "You are an expert at evaluating context relevance."
    (selection_prompt (candidates 4) "what is a map?")
  = inr "{}" /\
  json_loads (Externals := replies_empty_object) "{}" = inr (JObj []) /\
  select_top_contexts_task (E := replies_empty_object) (candidates 4) "what is a map?"
  = JArr [] /\
  JArr (map (fun c => id_value (c_id c)) (firstn 3 (candidates 4)))
  = JArr [JStr "k1"; JStr "k2"; JStr "k3"] /\
  select_top_contexts_task (E := replies_empty_object) (candidates 4) "what is a map?"
  <> JArr (map (fun c => id_value (c_id c)) (firstn 3 (candidates 4))).
Proof.
  repeat split; try (vm_compute; reflexivity).
  vm_compute. intros Heq. discriminate Heq.
Qed.

(** ** Retrieval: the pipeline task *)

(** C7 (the code departs from it): the task computes [contexts[:10]] and
    then hands the whole list to the selection. With eleven candidates the
    prompt announces and lists eleven; a collaborator that picks "k11", the
    candidate ranked eleventh, gets it selected and returned, although it is
    not among the first ten. *)
Theorem selection_is_given_every_candidate :
  contains "You are given 11 context passages"
           (selection_prompt (candidates 11) "what is a map?") = true /\
  contains "ID: k11" (selection_prompt (candidates 11) "what is a map?") = true /\
  contains "ID: k11" (selection_prompt (firstn 10 (candidates 11)) "what is a map?")
    = false /\
  option_map g_selected_ids
    (match process_contexts_and_generate_task (E := picks_k11_if_listed)
             (candidates 11) "what is a map?" with
     | inr r => Some r
     | inl _ => None
     end)
  = Some (JArr [JStr "k11"]) /\
  option_map (fun r => map c_id (g_selected_contexts r))
    (match process_contexts_and_generate_task (E := picks_k11_if_listed)
             (candidates 11) "what is a map?" with
     | inr r => Some r
     | inl _ => None
     end)
  = Some [Some (IdStr "k11")].
Proof. vm_compute. repeat split. Qed.

(** The selection the pipeline reports is the selection over the whole
    candidate list, for every collaborator and every list. *)
Lemma pipeline_selects_over_all_contexts :
  forall (E : Externals) (contexts : list Context) (user_query : string)
         (r : GenerateResult),
    process_contexts_and_generate_task contexts user_query = inr r ->
    g_selected_ids r = select_top_contexts_task contexts user_query.
Proof.
  intros E contexts user_query r. unfold process_contexts_and_generate_task.
  destruct (filter_selected (select_top_contexts_task contexts user_query) contexts)
    as [e | kept]; [discriminate |].
  destruct (call_model_task _ _) as [answer reasoning].
  intros Hr. injection Hr as <-. reflexivity.
Qed.

(** * Further properties of the tasks *)

#[local] Arguments uuid_str : simpl never.
#[local] Arguments ingest_new_book : simpl never.

(** ** Ingestion: from the guards to the registry lookup *)

Lemma after_lookup_frame :
  forall (title : string) (w : World),
    books_collection (after_lookup title w) = books_collection w /\
    qdrant_points (after_lookup title w) = qdrant_points w /\
    b2_files (after_lookup title w) = b2_files w /\
    celery_queue (after_lookup title w) = celery_queue w /\
    calls (after_lookup title w) =
      (calls w ++ [QdrantGetCollections; QdrantGetCollections]
         ++ (if negb (mem_string "pdf_chunks" (qdrant_collections w))
             then [QdrantCreateCollection "pdf_chunks"] else [])
         ++ [MongoFindOne (ByTitle title)])%list.
Proof.
  intros title w. unfold after_lookup.
  destruct (negb (mem_string "pdf_chunks" (qdrant_collections w)));
    cbn; repeat split.
Qed.

(** With the clients up, the file on disk and an outline, the task gets as
    far as the registry lookup and ends there. *)
Lemma process_pdf_task_stops_at_lookup :
  forall (H : Helpers) (w : World) (pdf_path user_id : string)
         (batch_size workers : Z) (doc : Document),
    embedder w && QDRANT_CLIENT w && B2_UPLOADER w = true ->
    find_file pdf_path (disk w) = Some doc ->
    doc_toc doc <> [] ->
    process_pdf_task pdf_path user_id batch_size workers w =
      (inl (RuntimeError "await wasn't used with future"),
       after_lookup (fst (extract_metadata doc)) w).
Proof.
  intros H w pdf_path user_id batch_size workers doc Hclients Hfile Htoc.
  unfold process_pdf_task, get_collections, create_collection, fitz_open, find_one,
    existing_book_branch, after_lookup.
  destruct w as [em qc b2u files cols pts books b2f queue ent nu no now log].
  run_task. cbn in Hclients, Hfile. rewrite Hclients. cbn. rewrite Hfile. cbn.
  destruct (doc_toc doc) as [| row rows] eqn:Hrows; [contradiction |].
  destruct (mem_string "pdf_chunks" cols) eqn:Hmem; cbn;
    rewrite Hfile; cbn; rewrite Hrows; cbn;
    destruct (extract_metadata doc) as [title author_name]; cbn;
    unfold with_calls, with_collections; cbn;
    repeat rewrite <- app_assoc; reflexivity.
Qed.

(** ** Ingestion: what the task does from end to end *)

(** X1: when one of the three global clients is not initialised, the task
    raises [EnvironmentError] for every path, existing or not, and leaves
    the world as it found it, the log of store calls included. *)
Theorem uninitialised_client_stops_ingestion :
  forall (H : Helpers) (w : World) (pdf_path user_id : string)
         (batch_size workers : Z),
    embedder w && QDRANT_CLIENT w && B2_UPLOADER w = false ->
    process_pdf_task pdf_path user_id batch_size workers w =
      (inl (EnvironmentError
              "One or more global clients (Model, Qdrant, B2) are not initialized."),
       w).
Proof.
  intros H w pdf_path user_id batch_size workers Hclients.
  unfold process_pdf_task. run_task. rewrite Hclients. reflexivity.
Qed.

(** X1 at a world whose embedding model is missing. *)
Lemma uninitialised_client_stops_ingestion_witness :
  process_pdf_task (H := flat_helpers) "atlas.pdf" "u1" 50 6 cold_world =
    (inl (EnvironmentError
            "One or more global clients (Model, Qdrant, B2) are not initialized."),
     cold_world).
Proof.
  exact (uninitialised_client_stops_ingestion flat_helpers cold_world "atlas.pdf" "u1"
           50%Z 6%Z eq_refl).
Defined.

(** X2: with the three clients up, the file on disk and an outline in it,
    the task ends at step 3 for every registry, title and requester: the
    registry lookup is not awaited, and the test ["id" not in existing_book]
    raises [RuntimeError]. The lookup is the only registry call of the run;
    no record is inserted or changed, nothing is uploaded or indexed, no
    job is sent. The log gains the two collection listings, the creation
    of the collection when it was missing, and the lookup. *)
Theorem ingestion_ends_at_the_registry_lookup :
  forall (H : Helpers) (w : World) (pdf_path user_id : string)
         (batch_size workers : Z) (doc : Document),
    embedder w && QDRANT_CLIENT w && B2_UPLOADER w = true ->
    find_file pdf_path (disk w) = Some doc ->
    doc_toc doc <> [] ->
    let out := process_pdf_task pdf_path user_id batch_size workers w in
    fst out = inl (RuntimeError "await wasn't used with future") /\
    books_collection (snd out) = books_collection w /\
    qdrant_points (snd out) = qdrant_points w /\
    b2_files (snd out) = b2_files w /\
    celery_queue (snd out) = celery_queue w /\
    calls (snd out) =
      (calls w ++ [QdrantGetCollections; QdrantGetCollections]
         ++ (if negb (mem_string "pdf_chunks" (qdrant_collections w))
             then [QdrantCreateCollection "pdf_chunks"] else [])
         ++ [MongoFindOne (ByTitle (fst (extract_metadata doc)))])%list.
Proof.
  intros H w pdf_path user_id batch_size workers doc Hclients Hfile Htoc out.
  subst out.
  rewrite (process_pdf_task_stops_at_lookup H w pdf_path user_id batch_size workers
             doc Hclients Hfile Htoc).
  cbn [fst snd]. split; [reflexivity |].
  apply after_lookup_frame.
Qed.

(** X2 for "atlas.pdf", once with an empty registry and once with a
    registry that already holds the title. *)
Lemma ingestion_ends_at_the_registry_lookup_witness :
  fst (process_pdf_task (H := flat_helpers) "atlas.pdf" "u1" 50 6
         (fresh_world [("atlas.pdf", doc_atlas)]))
    = inl (RuntimeError "await wasn't used with future") /\
  books_collection
    (snd (process_pdf_task (H := flat_helpers) "atlas.pdf" "u2" 50 6
            (with_disk_books [("atlas.pdf", doc_atlas)] [book_atlas ["u1"]])))
    = [book_atlas ["u1"]].
Proof.
  split.
  - exact (proj1 (ingestion_ends_at_the_registry_lookup flat_helpers
                    (fresh_world [("atlas.pdf", doc_atlas)]) "atlas.pdf" "u1"
                    50%Z 6%Z doc_atlas eq_refl eq_refl ltac:(discriminate))).
  - exact (proj1 (proj2 (ingestion_ends_at_the_registry_lookup flat_helpers
                    (with_disk_books [("atlas.pdf", doc_atlas)] [book_atlas ["u1"]])
                    "atlas.pdf" "u2" 50%Z 6%Z doc_atlas eq_refl eq_refl
                    ltac:(discriminate)))).
Defined.

(** X22: the task returns a result for no input. Whatever the helpers, the
    world, the path, the requester, the batch size and the worker count,
    the run ends with an exception, and the registry, the index, the asset
    store and the job queue are what they were. *)
Theorem ingestion_never_returns_a_result :
  forall (H : Helpers) (w : World) (pdf_path user_id : string)
         (batch_size workers : Z),
    let out := process_pdf_task pdf_path user_id batch_size workers w in
    (exists e : exn, fst out = inl e) /\
    books_collection (snd out) = books_collection w /\
    qdrant_points (snd out) = qdrant_points w /\
    b2_files (snd out) = b2_files w /\
    celery_queue (snd out) = celery_queue w.
Proof.
  intros H w pdf_path user_id batch_size workers out. subst out.
  destruct (embedder w && QDRANT_CLIENT w && B2_UPLOADER w) eqn:Hclients.
  - destruct (find_file pdf_path (disk w)) as [doc |] eqn:Hfile.
    + destruct (doc_toc doc) as [| row rows] eqn:Hrows.
      * unfold process_pdf_task, get_collections, create_collection, fitz_open.
        run_task. rewrite Hclients. cbn. rewrite Hfile. cbn.
        destruct (mem_string "pdf_chunks" (qdrant_collections w)); cbn;
          rewrite Hfile; cbn; rewrite Hrows; cbn;
          (split; [eexists; reflexivity | repeat split]).
      * assert (Htoc : doc_toc doc <> []) by (rewrite Hrows; discriminate).
        rewrite (process_pdf_task_stops_at_lookup H w pdf_path user_id batch_size
                   workers doc Hclients Hfile Htoc).
        cbn [fst snd]. split; [eexists; reflexivity |].
        destruct (after_lookup_frame (fst (extract_metadata doc)) w)
          as (Hb & Hp & Hf & Hq & _).
        repeat split; assumption.
    + unfold process_pdf_task. run_task. rewrite Hclients. cbn. rewrite Hfile. cbn.
      split; [eexists; reflexivity | repeat split].
  - unfold process_pdf_task. run_task. rewrite Hclients. cbn.
    split; [eexists; reflexivity | repeat split].
Qed.

(** ** Deletion: the record that is never read *)

(** X5: [delete_book_task] returns a result for no input. For every book
    id, requester and world, it asks the registry for the record twice,
    awaits neither answer, and raises [AttributeError] at
    [book.get("uploaded_by", [])]. The world differs only by the two reads
    on the log: no record is deleted or changed and no job is sent. *)
Theorem deletion_ends_at_the_unawaited_record :
  forall (book_id user_id : string) (w : World),
    delete_book_task book_id user_id w =
      (inl (AttributeError "'_asyncio.Future' object has no attribute 'get'"),
       with_calls
         (calls w ++ [MongoFindOne (ById book_id); MongoFindOne (ById book_id)])%list
         w).
Proof.
  intros book_id user_id w.
  unfold delete_book_task.
  destruct vector_purge_name_is_a_plain_function as [Hv Hb]. rewrite Hv, Hb.
  unfold delete_book_body, find_one. run_quietly.
  unfold with_calls. cbn.
  repeat rewrite <- app_assoc. reflexivity.
Qed.

(** ** Ingestion: the batched upsert *)

Lemma has_point_id_app :
  forall (i : Z) (a b : list Point),
    has_point_id i (a ++ b) = has_point_id i a || has_point_id i b.
Proof. intros i a b. unfold has_point_id. apply existsb_app. Qed.

Lemma has_point_id_in :
  forall (p : Point) (l : list Point), In p l -> has_point_id (pt_id p) l = true.
Proof.
  intros p l Hin. unfold has_point_id. apply existsb_exists.
  exists p. split; [exact Hin | apply Z.eqb_refl].
Qed.

Lemma has_point_id_false :
  forall (i : Z) (l : list Point),
    ~ In i (map pt_id l) -> has_point_id i l = false.
Proof.
  intros i l Hnot. unfold has_point_id.
  destruct (existsb (fun p => (pt_id p =? i)%Z) l) eqn:Hex; [| reflexivity].
  apply existsb_exists in Hex. destruct Hex as [p [Hin Heq]].
  apply Z.eqb_eq in Heq. exfalso. apply Hnot. rewrite <- Heq.
  apply in_map. exact Hin.
Qed.

Lemma filter_out_own_ids :
  forall l : list Point,
    List.filter (fun p => negb (has_point_id (pt_id p) l)) l = [].
Proof.
  intros l.
  assert (Hgen : forall m, incl m l ->
            List.filter (fun p => negb (has_point_id (pt_id p) l)) m = []).
  { induction m as [| p r IH]; intros Hincl; [reflexivity |].
    cbn. rewrite (has_point_id_in p l) by (apply Hincl; left; reflexivity).
    cbn. apply IH. intros x Hx. apply Hincl. right. exact Hx. }
  apply Hgen. apply incl_refl.
Qed.

(** Sending a batch a second time changes nothing. *)
Lemma upserted_twice :
  forall stored points : list Point,
    upserted (upserted stored points) points = upserted stored points.
Proof.
  intros stored points. unfold upserted.
  rewrite filter_app, filter_out_own_ids, app_nil_r.
  f_equal. induction stored as [| p r IH]; [reflexivity |].
  cbn. destruct (has_point_id (pt_id p) points) eqn:Hp; cbn.
  - exact IH.
  - rewrite Hp. cbn. f_equal. exact IH.
Qed.

(** Two batches with no identifier in common amount to one upsert of
    both. *)
Lemma upserted_app :
  forall stored a b : list Point,
    (forall p, In p a -> ~ In (pt_id p) (map pt_id b)) ->
    upserted (upserted stored a) b = upserted stored (a ++ b).
Proof.
  intros stored a b Hdisj. unfold upserted.
  rewrite filter_app, <- app_assoc. f_equal.
  - induction stored as [| p r IH]; [reflexivity |].
    cbn. rewrite has_point_id_app.
    destruct (has_point_id (pt_id p) a); cbn; [exact IH |].
    destruct (has_point_id (pt_id p) b); cbn; [exact IH | f_equal; exact IH].
  - f_equal. clear stored.
    induction a as [| p r IH]; [reflexivity |].
    cbn. rewrite (has_point_id_false (pt_id p) b) by (apply Hdisj; left; reflexivity).
    cbn. f_equal. apply IH. intros x Hx. apply Hdisj. right. exact Hx.
Qed.

Lemma bind_upsert :
  forall (A : Type) (c : string) (b : list Point) (k : unit -> M A) (w : World),
    bind (upsert c b) k w =
      k tt (with_points (upserted (qdrant_points w) b)
              (with_calls (calls w ++ [QdrantUpsert c (map pt_id b)])%list w)).
Proof. intros A c b k w. reflexivity. Qed.

Lemma disjoint_ids_of_nodup :
  forall b rest : list Point,
    NoDup (map pt_id b ++ map pt_id rest) ->
    forall x, In x b -> ~ In (pt_id x) (map pt_id rest).
Proof.
  intros b rest. induction b as [| y b' IHb]; intros Hnd x Hx; [contradiction |].
  cbn in Hnd. inversion Hnd as [| ? ? Hnotin Hnd']; subst.
  destruct Hx as [-> | Hx].
  - intros Hin. apply Hnotin. apply in_or_app. right. exact Hin.
  - apply IHb; assumption.
Qed.

Lemma upserted_nil :
  forall stored : list Point, upserted stored [] = stored.
Proof.
  intros stored. unfold upserted. cbn. rewrite app_nil_r.
  apply forallb_filter_id. apply forallb_forall. intros x _. reflexivity.
Qed.

Lemma upsert_batches_points :
  forall (fuel : nat) (c : string) (bs : nat) (pts : list Point) (w : World),
    0 < bs ->
    List.length pts <= fuel ->
    NoDup (map pt_id pts) ->
    fst (upsert_batches fuel c bs pts w) = inr tt /\
    qdrant_points (snd (upsert_batches fuel c bs pts w))
      = upserted (qdrant_points w) pts.
Proof.
  intros fuel c bs. induction fuel as [| fuel' IH]; intros pts w Hbs Hlen Hnodup.
  - destruct pts; [| cbn in Hlen; lia].
    cbn. rewrite upserted_nil. split; reflexivity.
  - destruct pts as [| p r].
    + cbn. rewrite upserted_nil. split; reflexivity.
    + cbn [upsert_batches].
      set (b := firstn bs (p :: r)). set (rest := skipn bs (p :: r)).
      assert (Hsplit : (b ++ rest)%list = p :: r) by apply firstn_skipn.
      assert (Hrest_len : List.length rest <= fuel').
      { subst rest. rewrite length_skipn. cbn [List.length] in *. lia. }
      assert (Hnd : NoDup (map pt_id b ++ map pt_id rest)).
      { rewrite <- map_app, Hsplit. exact Hnodup. }
      assert (Hnd_rest : NoDup (map pt_id rest)).
      { apply NoDup_app_remove_l in Hnd. exact Hnd. }
      rewrite !bind_upsert.
      match goal with
      | |- context [upsert_batches fuel' c bs rest ?w2] =>
          destruct (IH rest w2 Hbs Hrest_len Hnd_rest) as [Hres Hpts];
          rewrite Hpts
      end.
      split; [exact Hres |]. cbn [qdrant_points with_points with_calls].
      rewrite upserted_twice, (upserted_app _ b rest (disjoint_ids_of_nodup b rest Hnd)),
        Hsplit.
      reflexivity.
Qed.

(** X6: with a positive batch size and points of pairwise distinct ids, the
    upsert loop returns and leaves in the collection exactly what one
    upsert of all the points would leave: the stored points of other ids,
    then every point in order. Sending each batch twice and cutting the
    list into batches lose and duplicate nothing. *)
Theorem batched_upsert_stores_every_point :
  forall (collection_name : string) (batch_size : Z) (points : list Point)
         (w : World),
    (0 < batch_size)%Z ->
    NoDup (map pt_id points) ->
    fst (upsert_loop collection_name batch_size points w) = inr tt /\
    qdrant_points (snd (upsert_loop collection_name batch_size points w))
      = (List.filter (fun p => negb (has_point_id (pt_id p) points)) (qdrant_points w)
           ++ points)%list.
Proof.
  intros collection_name batch_size points w Hbs Hnodup.
  unfold upsert_loop.
  replace (batch_size =? 0)%Z with false by (symmetry; apply Z.eqb_neq; lia).
  replace (batch_size <? 0)%Z with false by (symmetry; apply Z.ltb_ge; lia).
  apply upsert_batches_points; [lia | apply Nat.le_refl | exact Hnodup].
Qed.

(** X6 at three points sent in batches of two over one stored point that
    shares the id of the second. *)
Lemma batched_upsert_stores_every_point_witness :
  map pt_id
    (qdrant_points
       (snd (upsert_loop "pdf_chunks" 2
               [mkPoint 1 [] "c1" "b1" "Atlas" "M" 1 2 "h" "p" "t" None;
                mkPoint 2 [] "c2" "b1" "Atlas" "M" 3 4 "h" "p" "t" None;
                mkPoint 3 [] "c3" "b1" "Atlas" "M" 5 6 "h" "p" "t" None]
               (with_points [mkPoint 2 [] "old" "b0" "Old" "M" 1 1 "h" "p" "t" None;
                             mkPoint 9 [] "o9" "b0" "Old" "M" 2 2 "h" "p" "t" None]
                            (fresh_world [])))))
  = [9; 1; 2; 3]%Z.
Proof.
  rewrite (proj2 (batched_upsert_stores_every_point "pdf_chunks" 2
                    [mkPoint 1 [] "c1" "b1" "Atlas" "M" 1 2 "h" "p" "t" None;
                     mkPoint 2 [] "c2" "b1" "Atlas" "M" 3 4 "h" "p" "t" None;
                     mkPoint 3 [] "c3" "b1" "Atlas" "M" 5 6 "h" "p" "t" None]
                    (with_points
                       [mkPoint 2 [] "old" "b0" "Old" "M" 1 1 "h" "p" "t" None;
                        mkPoint 9 [] "o9" "b0" "Old" "M" 2 2 "h" "p" "t" None]
                       (fresh_world []))
                    ltac:(lia)
                    ltac:(repeat constructor; cbn; intuition discriminate))).
  reflexivity.
Defined.

(** ** Retrieval: what the selection returns *)

Lemma select_with_model_list :
  forall (E : Externals) (prompt text : string) (kv : list (string * json))
         (l : list json),
    generate_content "You are an expert at evaluating context relevance." prompt
      = inr text ->
    json_loads (strip (re_sub_fence (strip text))) = inr (JObj kv) ->
    dict_get "selected_ids" kv = Some (JArr l) ->
    select_with_model prompt = inr (JArr (firstn 3 l)).
Proof.
  intros E prompt text kv l Hgen Hloads Hkey.
  unfold select_with_model. rewrite Hgen, Hloads, Hkey. cbn.
  destruct l as [| a [| b [| c r]]]; reflexivity.
Qed.

(** X7: when the reply parses to an object whose ["selected_ids"] is a
    list, the selection is the first three entries of that list in reply
    order, or the whole list when it has fewer; the entries are not checked
    against the candidates. *)
Theorem selection_keeps_first_three_of_reply :
  forall (E : Externals) (contexts : list Context) (user_query text : string)
         (kv : list (string * json)) (l : list json),
    generate_content "You are an expert at evaluating context relevance."
                     (selection_prompt contexts user_query) = inr text ->
    json_loads (strip (re_sub_fence (strip text))) = inr (JObj kv) ->
    dict_get "selected_ids" kv = Some (JArr l) ->
    select_top_contexts_task contexts user_query = JArr (firstn 3 l).
Proof.
  intros E contexts user_query text kv l Hgen Hloads Hkey.
  unfold select_top_contexts_task.
  rewrite (select_with_model_list E _ text kv l Hgen Hloads Hkey). reflexivity.
Qed.

(** X7 at a collaborator that names "k11" for eleven candidates. *)
Lemma selection_keeps_first_three_of_reply_witness :
  select_top_contexts_task (E := picks_k11_if_listed) (candidates 11) "what is a map?"
    = JArr [JStr "k11"].
Proof.
  exact (selection_keeps_first_three_of_reply picks_k11_if_listed (candidates 11)
           "what is a map?" reply_k11 [("selected_ids", JArr [JStr "k11"])]
           [JStr "k11"] eq_refl eq_refl eq_refl).
Defined.

(** X8: whatever the collaborator and the parser do, a selection that is a
    list has at most three entries. *)
Theorem selection_list_has_at_most_three :
  forall (E : Externals) (contexts : list Context) (user_query : string)
         (l : list json),
    select_top_contexts_task contexts user_query = JArr l ->
    List.length l <= 3.
Proof.
  intros E contexts user_query l.
  unfold select_top_contexts_task, select_with_model, first_three_ids.
  assert (Hfallback :
            JArr (map (fun c => id_value (c_id c)) (firstn 3 contexts)) = JArr l ->
            List.length l <= 3).
  { intros Heq. injection Heq as <-. rewrite length_map.
    exact (firstn_le_length 3 contexts). }
  destruct (generate_content _ _) as [e | text]; [exact Hfallback |].
  destruct (json_loads _) as [e | parsed]; [exact Hfallback |].
  destruct parsed as [| b | n | s | l0 | kv]; try exact Hfallback.
  destruct (get_or (dict_get "selected_ids" kv) (JArr [])) as [| b | n | s | l0 | kv0];
    cbn -[Nat.leb firstn]; try exact Hfallback.
  - destruct (Nat.leb 3 (String.length s)); cbn; intros Heq; discriminate Heq.
  - destruct (Nat.leb 3 (List.length l0)) eqn:Hlen; cbn.
    + intros Heq. injection Heq as <-. exact (firstn_le_length 3 l0).
    + intros Heq. injection Heq as <-. apply Nat.leb_gt in Hlen. lia.
  - destruct (Nat.leb 3 (List.length kv0)); cbn;
      [exact Hfallback | intros Heq; discriminate Heq].
Qed.

(** X8 at the fallback over four candidates. *)
Lemma selection_list_has_at_most_three_witness :
  select_top_contexts_task
    (E := scripted (inr []) (fun _ _ => inl (Exception "unavailable")) loads_script)
    (candidates 4) "what is a map?"
  = JArr [JStr "k1"; JStr "k2"; JStr "k3"] /\
  List.length [JStr "k1"; JStr "k2"; JStr "k3"] <= 3.
Proof.
  split; [reflexivity |].
  exact (selection_list_has_at_most_three
           (scripted (inr []) (fun _ _ => inl (Exception "unavailable")) loads_script)
           (candidates 4) "what is a map?" [JStr "k1"; JStr "k2"; JStr "k3"] eq_refl).
Defined.

(** ** Retrieval: what the pipeline returns *)

Lemma filter_selected_list :
  forall (l : list json) (contexts : list Context),
    filter_selected (JArr l) contexts =
      inr (List.filter (fun c => existsb (id_eqb (c_id c)) l) contexts).
Proof.
  intros l contexts. induction contexts as [| c r IH]; [reflexivity |].
  cbn [filter_selected py_in List.filter]. rewrite IH. reflexivity.
Qed.

(** X9: when the selection is a list, the pipeline returns a result, and
    its [selected_contexts] are the candidates whose id equals an entry of
    the selection, in the order of the candidate list (not of the
    selection), every candidate of a selected id included. *)
Theorem selected_contexts_follow_candidate_order :
  forall (E : Externals) (contexts : list Context) (user_query : string)
         (l : list json),
    select_top_contexts_task contexts user_query = JArr l ->
    exists answer reasoning,
      process_contexts_and_generate_task contexts user_query =
        inr (mkGenerateResult answer reasoning (JArr l)
               (List.filter (fun c => existsb (id_eqb (c_id c)) l) contexts)).
Proof.
  intros E contexts user_query l Hsel.
  unfold process_contexts_and_generate_task. rewrite Hsel, filter_selected_list.
  destruct (call_model_task _ _) as [answer reasoning].
  exists answer, reasoning. reflexivity.
Qed.

(** X9 at eleven candidates of which the collaborator names the last. *)
Lemma selected_contexts_follow_candidate_order_witness :
  exists answer reasoning,
    process_contexts_and_generate_task (E := picks_k11_if_listed) (candidates 11)
      "what is a map?" =
      inr (mkGenerateResult answer reasoning (JArr [JStr "k11"])
             (List.filter (fun c => existsb (id_eqb (c_id c)) [JStr "k11"])
                          (candidates 11))).
Proof.
  exact (selected_contexts_follow_candidate_order picks_k11_if_listed (candidates 11)
           "what is a map?" [JStr "k11"] eq_refl).
Defined.

(** X10: with the generation collaborator down (every call raises, the
    exception being [fault] of the two texts it was called with), the
    pipeline still returns a result: the selection is the ids of the first
    three candidates, the selected contexts are the candidates carrying one
    of these ids, the answer is ["Error: "] followed by the message of the
    exception the answering call raised, that is [fault] at the system
    prompt of the answer and the prompt built from the selected contexts,
    and the reasoning is ["No reasoning available"]. *)
Theorem pipeline_degrades_when_generation_is_down :
  forall (E : Externals) (contexts : list Context) (user_query : string)
         (fault : string -> string -> exn),
    (forall system_text user_text,
        generate_content system_text user_text = inl (fault system_text user_text)) ->
    process_contexts_and_generate_task contexts user_query =
      inr (mkGenerateResult
             ("Error: "
                ++ exn_message
                     (fault
                        "You are a knowledgeable AI assistant. Respond in clean Markdown with headings, bullet points, and summary."
                        (answer_prompt
                           (List.filter
                              (fun c => existsb (id_eqb (c_id c))
                                                (map (fun c' => id_value (c_id c'))
                                                     (firstn 3 contexts)))
                              contexts)
                           user_query)))
             "No reasoning available"
             (JArr (map (fun c => id_value (c_id c)) (firstn 3 contexts)))
             (List.filter
                (fun c => existsb (id_eqb (c_id c))
                                  (map (fun c' => id_value (c_id c'))
                                       (firstn 3 contexts)))
                contexts)).
Proof.
  intros E contexts user_query fault Hdown.
  assert (Hsel : select_top_contexts_task contexts user_query
                 = JArr (map (fun c => id_value (c_id c)) (firstn 3 contexts))).
  { unfold select_top_contexts_task, select_with_model.
    rewrite (Hdown "You are an expert at evaluating context relevance."
                   (selection_prompt contexts user_query)).
    reflexivity. }
  unfold process_contexts_and_generate_task. rewrite Hsel, filter_selected_list.
  unfold call_model_task. rewrite Hdown. reflexivity.
Qed.

(** X10 at four candidates and a collaborator that raises an exception
    whose message is the system text it was given. *)
Lemma pipeline_degrades_when_generation_is_down_witness :
  option_map g_answer
    (match process_contexts_and_generate_task
             (E := scripted (inr []) (fun s _ => inl (Exception s)) loads_script)
             (candidates 4) "what is a map?" with
     | inr r => Some r
     | inl _ => None
     end)
    = Some "Error: You are a knowledgeable AI assistant. Respond in clean Markdown with headings, bullet points, and summary.".
Proof.
  rewrite (pipeline_degrades_when_generation_is_down
             (scripted (inr []) (fun s _ => inl (Exception s)) loads_script)
             (candidates 4) "what is a map?"
             (fun s _ => Exception s) (fun _ _ => eq_refl)).
  reflexivity.
Defined.

(** ** The cleanup jobs *)

Lemma filter_filter_same :
  forall (A : Type) (p : A -> bool) (l : list A),
    List.filter p (List.filter p l) = List.filter p l.
Proof.
  intros A p l. induction l as [| x r IH]; [reflexivity |].
  cbn. destruct (p x) eqn:Hp; cbn; [rewrite Hp; f_equal |]; exact IH.
Qed.

(** X11: the vector purge (the undecorated definition) never raises. It
    either reports ["success"], and then exactly the points of the book
    are gone, the points of other books kept in order, or it reports
    ["failed"], and then the world is as before. The registry and the
    stored assets are never touched. *)
Theorem vector_purge_removes_only_the_book :
  forall (F : CleanupFaults) (book_id : string) (w : World),
    exists r,
      fst (delete_qdrant_chunks_task book_id w) = inr r /\
      ((cr_status r = "success" /\
        qdrant_points (snd (delete_qdrant_chunks_task book_id w))
          = List.filter (fun p => negb (String.eqb (pt_book_id p) book_id))
                        (qdrant_points w))
       \/ (cr_status r = "failed" /\ snd (delete_qdrant_chunks_task book_id w) = w)) /\
      books_collection (snd (delete_qdrant_chunks_task book_id w)) = books_collection w /\
      b2_files (snd (delete_qdrant_chunks_task book_id w)) = b2_files w.
Proof.
  intros F book_id w. unfold delete_qdrant_chunks_task, qdrant_delete. run_task.
  destruct (QDRANT_CLIENT w); cbn.
  - destruct (qdrant_delete_fault w book_id) as [e |]; cbn; eexists;
      (split; [reflexivity |]); split; try (split; reflexivity).
    + right. split; reflexivity.
    + left. split; reflexivity.
  - eexists. split; [reflexivity |]. split; [| split; reflexivity].
    right. split; reflexivity.
Qed.

(** X12: the vector purge is idempotent under retry: when it succeeds
    twice in a row, the second run removes nothing more. *)
Theorem vector_purge_retry_changes_nothing :
  forall (F : CleanupFaults) (book_id : string) (w : World),
    QDRANT_CLIENT w = true ->
    qdrant_delete_fault w book_id = None ->
    qdrant_delete_fault (snd (delete_qdrant_chunks_task book_id w)) book_id = None ->
    fst (delete_qdrant_chunks_task book_id
           (snd (delete_qdrant_chunks_task book_id w)))
      = inr (mkCleanupResult "success" (Some book_id) None None) /\
    qdrant_points
      (snd (delete_qdrant_chunks_task book_id
              (snd (delete_qdrant_chunks_task book_id w))))
      = qdrant_points (snd (delete_qdrant_chunks_task book_id w)).
Proof.
  intros F book_id w Hclient Hok1.
  unfold delete_qdrant_chunks_task, qdrant_delete. run_task.
  rewrite Hclient. cbn. rewrite Hok1. cbn. rewrite Hclient. cbn.
  intros Hok2. rewrite Hok2. cbn.
  split; [reflexivity | apply filter_filter_same].
Qed.

(** X12 at two points of "b1" and one of "b2". *)
Lemma vector_purge_retry_changes_nothing_witness :
  map pt_id
    (qdrant_points
       (snd (delete_qdrant_chunks_task (F := no_faults) "b1"
               (snd (delete_qdrant_chunks_task (F := no_faults) "b1"
                       (with_points [stored_point 1 "b1"; stored_point 2 "b2";
                                     stored_point 3 "b1"]
                                    (fresh_world [])))))))
  = [2%Z].
Proof.
  rewrite (proj2 (vector_purge_retry_changes_nothing no_faults "b1"
                    (with_points [stored_point 1 "b1"; stored_point 2 "b2";
                                  stored_point 3 "b1"]
                                 (fresh_world []))
                    eq_refl eq_refl eq_refl)).
  reflexivity.
Defined.

Lemma b2_sweep_keeps_other_books :
  forall (F : CleanupFaults) (book_id : string) (files : list B2File) (i : nat),
    List.filter (fun f => negb (of_book book_id f)) (fst (b2_sweep book_id i files))
      = List.filter (fun f => negb (of_book book_id f)) files.
Proof.
  intros F book_id files. induction files as [| f r IH]; intros i; [reflexivity |].
  cbn [b2_sweep]. specialize (IH (S i)).
  destruct (b2_sweep book_id (S i) r) as [remaining n]. cbn [fst] in IH.
  unfold of_book in *. cbn [List.filter].
  destruct (String.eqb (fi_book_id (b2_file_info f)) book_id) eqn:Hf; cbn [negb].
  - destruct (b2_delete_file_fault i f); [| destruct b2_delete_absent_fault];
      cbn [fst List.filter]; try rewrite Hf; cbn [negb]; exact IH.
  - cbn [fst List.filter]. rewrite Hf. cbn [negb]. f_equal. exact IH.
Qed.

Lemma b2_sweep_without_first_faults :
  forall (F : CleanupFaults) (book_id : string) (files : list B2File) (i : nat),
    (forall j f, b2_delete_file_fault j f = None) ->
    b2_sweep book_id i files =
      (List.filter (fun f => negb (of_book book_id f)) files,
       match b2_delete_absent_fault with
       | Some _ => 0
       | None => List.length (List.filter (of_book book_id) files)
       end).
Proof.
  intros F book_id files. induction files as [| f r IH]; intros i Hok.
  - cbn. destruct b2_delete_absent_fault; reflexivity.
  - cbn [b2_sweep]. rewrite (IH (S i) Hok). unfold of_book. cbn [List.filter].
    destruct (String.eqb (fi_book_id (b2_file_info f)) book_id); cbn [negb].
    + rewrite Hok. destruct b2_delete_absent_fault; reflexivity.
    + reflexivity.
Qed.

Lemma delete_b2_pdfs_task_runs :
  forall (F : CleanupFaults) (book_id : string) (w : World),
    delete_b2_pdfs_task book_id w =
      if negb (B2_UPLOADER w)
      then (inr (mkCleanupResult "failed" None (Some "B2 Uploader not initialized") None),
            w)
      else
        match b2_list_files_fault with
        | Some e => (inr (mkCleanupResult "failed" None (Some (exn_message e)) None), w)
        | None =>
            (inr (mkCleanupResult "success" (Some book_id) None
                    (Some (snd (b2_sweep book_id 0 (b2_files w))))),
             with_b2_files (fst (b2_sweep book_id 0 (b2_files w))) w)
        end.
Proof.
  intros F book_id w. unfold delete_b2_pdfs_task. run_task.
  destruct (B2_UPLOADER w); cbn; [| reflexivity].
  destruct b2_list_files_fault; cbn; [reflexivity |].
  destruct (b2_sweep book_id 0 (b2_files w)) as [remaining n]. reflexivity.
Qed.

(** X13: the asset purge never raises, whatever fails inside it, and never
    removes a file of another book: the files whose metadata name another
    [book_id] are all still stored, in their order. It does not touch the
    registry or the vector store, and when it reports ["failed"] the world
    is as before. *)
Theorem asset_purge_keeps_other_books :
  forall (F : CleanupFaults) (book_id : string) (w : World),
    exists r,
      fst (delete_b2_pdfs_task book_id w) = inr r /\
      List.filter (fun f => negb (of_book book_id f))
                  (b2_files (snd (delete_b2_pdfs_task book_id w)))
        = List.filter (fun f => negb (of_book book_id f)) (b2_files w) /\
      books_collection (snd (delete_b2_pdfs_task book_id w)) = books_collection w /\
      qdrant_points (snd (delete_b2_pdfs_task book_id w)) = qdrant_points w /\
      (cr_status r = "success" \/
       (cr_status r = "failed" /\ snd (delete_b2_pdfs_task book_id w) = w)).
Proof.
  intros F book_id w. rewrite delete_b2_pdfs_task_runs.
  destruct (B2_UPLOADER w); cbn [negb].
  - destruct b2_list_files_fault as [e |]; eexists; (split; [reflexivity |]);
      cbn [fst snd].
    + repeat split. right. split; reflexivity.
    + split; [apply b2_sweep_keeps_other_books |].
      repeat split. left. reflexivity.
  - eexists. split; [reflexivity |]. cbn [fst snd]. repeat split.
    right. split; reflexivity.
Qed.

(** X14: when the uploader is initialised, the listing works and no first
    [delete_file] call fails, the asset purge removes every file of the
    book and nothing else. Its [deleted_count] is the number of removed
    files only if the repeated [delete_file] call on a removed file does
    not raise; if that call raises, the count stays 0 although the files
    are gone. *)
Theorem asset_purge_removes_the_book_and_counts :
  forall (F : CleanupFaults) (book_id : string) (w : World),
    B2_UPLOADER w = true ->
    b2_list_files_fault = None ->
    (forall i f, b2_delete_file_fault i f = None) ->
    fst (delete_b2_pdfs_task book_id w) =
      inr (mkCleanupResult "success" (Some book_id) None
             (Some match b2_delete_absent_fault with
                   | Some _ => 0
                   | None => List.length (List.filter (of_book book_id) (b2_files w))
                   end)) /\
    b2_files (snd (delete_b2_pdfs_task book_id w))
      = List.filter (fun f => negb (of_book book_id f)) (b2_files w).
Proof.
  intros F book_id w Hclient Hlist Hok.
  rewrite delete_b2_pdfs_task_runs, Hclient, Hlist. cbn [negb].
  rewrite (b2_sweep_without_first_faults F book_id (b2_files w) 0 Hok).
  split; reflexivity.
Qed.

(** X14 where the repeated call raises: both files of "b1" are removed and
    the count is 0. *)
Lemma asset_purge_removes_the_book_and_counts_witness :
  fst (delete_b2_pdfs_task (F := repeat_delete_raises) "b1"
         (with_b2_files [stored_file "a.pdf" "b1"; stored_file "z.pdf" "b2";
                         stored_file "b.pdf" "b1"]
                        (fresh_world [])))
    = inr (mkCleanupResult "success" (Some "b1") None (Some 0)) /\
  b2_files
    (snd (delete_b2_pdfs_task (F := repeat_delete_raises) "b1"
            (with_b2_files [stored_file "a.pdf" "b1"; stored_file "z.pdf" "b2";
                            stored_file "b.pdf" "b1"]
                           (fresh_world []))))
    = [stored_file "z.pdf" "b2"].
Proof.
  exact (asset_purge_removes_the_book_and_counts repeat_delete_raises "b1"
           (with_b2_files [stored_file "a.pdf" "b1"; stored_file "z.pdf" "b2";
                           stored_file "b.pdf" "b1"]
                          (fresh_world []))
           eq_refl eq_refl (fun _ _ => eq_refl)).
Defined.

Lemma run_cleanup_job_keeps_points_and_books :
  forall (F : CleanupFaults) (job : string * string) (w : World),
    qdrant_points (snd (run_cleanup_job job w)) = qdrant_points w /\
    books_collection (snd (run_cleanup_job job w)) = books_collection w.
Proof.
  intros F [name book_id] w. unfold run_cleanup_job.
  destruct (String.eqb name "delete_qdrant_chunks_task").
  - unfold delete_qdrant_chunks_task_decorated. run_task.
    destruct (QDRANT_CLIENT w); split; reflexivity.
  - destruct (String.eqb name "delete_b2_pdfs_task").
    + unfold bind. rewrite delete_b2_pdfs_task_runs.
      destruct (B2_UPLOADER w); cbn [negb]; [| split; reflexivity].
      destruct b2_list_files_fault; split; reflexivity.
    + split; reflexivity.
Qed.

(** X15: no cleanup job a worker takes from the broker removes a vector
    point. The body registered under ["delete_qdrant_chunks_task"] is the
    decorated first definition, which ends after the client check, so
    whatever jobs are run and whatever fails, the points and the registry
    are as before. *)
Theorem dispatched_jobs_never_delete_points :
  forall (F : CleanupFaults) (jobs : list (string * string)) (w : World),
    qdrant_points (run_cleanup_jobs jobs w) = qdrant_points w /\
    books_collection (run_cleanup_jobs jobs w) = books_collection w.
Proof.
  intros F jobs. induction jobs as [| job r IH]; intros w; [split; reflexivity |].
  cbn [run_cleanup_jobs].
  destruct (IH (snd (run_cleanup_job job w))) as [Hp Hb].
  destruct (run_cleanup_job_keeps_points_and_books F job w) as [Hp1 Hb1].
  split; congruence.
Qed.

(** ** Ingestion: what steps 5 and 6 leave in the stores *)

Lemma bind_run :
  forall (A B : Type) (c : M A) (k : A -> M B) (w w' : World) (a : A),
    c w = (inr a, w') -> bind c k w = k a w'.
Proof. intros A B c k w w' a Hc. unfold bind. rewrite Hc. reflexivity. Qed.

Lemma upload_all_runs :
  forall (H : Helpers) (file_info : FileInfo) (pdf_chunks : list Chunk) (w : World),
    exists w',
      upload_all pdf_chunks file_info w = (inr (upload_results file_info pdf_chunks), w') /\
      b2_files w' = (b2_files w ++ uploaded_files file_info pdf_chunks)%list /\
      qdrant_points w' = qdrant_points w /\
      entropy w' = entropy w /\
      next_uuid w' = next_uuid w.
Proof.
  intros H file_info pdf_chunks. induction pdf_chunks as [| c r IH]; intros w.
  - exists w. cbn. rewrite app_nil_r. repeat split.
  - cbn [upload_all upload_results uploaded_files map flat_map].
    unfold upload_one at 1.
    destruct (b2_upload_one (ch_local_path c) (ch_filename c) file_info) as [url |].
    + match goal with
      | |- context [upload_all r file_info] =>
          destruct (IH (with_b2_files
                          (b2_files w ++ [mkB2File (ch_filename c) file_info])%list
                          (with_calls
                             (calls w ++ [B2UploadOne (ch_local_path c) (ch_filename c)])%list
                             w)))
            as (w' & Hrun & Hb2 & Hpts & Hent & Hnu)
      end.
      exists w'. split.
      * run_task. rewrite Hrun. reflexivity.
      * cbn in Hb2, Hpts, Hent, Hnu. rewrite Hb2, <- app_assoc. repeat split; assumption.
    + destruct (IH (with_calls
                      (calls w ++ [B2UploadOne (ch_local_path c) (ch_filename c)])%list
                      w))
        as (w' & Hrun & Hb2 & Hpts & Hent & Hnu).
      exists w'. split.
      * run_task. rewrite Hrun. reflexivity.
      * cbn in Hb2, Hpts, Hent, Hnu. repeat split; assumption.
Qed.

Lemma point_ids_cons :
  forall (draw : nat -> Z) (n m : nat),
    point_ids draw n (S m) = Z.shiftr (draw (S n)) 64 :: point_ids draw (S (S n)) m.
Proof.
  intros draw n m. unfold point_ids. cbn [seq map].
  f_equal; [f_equal; f_equal; lia |].
  rewrite <- seq_shift, map_map. apply map_ext. intros k.
  f_equal. f_equal. lia.
Qed.

#[local] Arguments point_ids : simpl never.

Lemma build_points_runs :
  forall (book_id title author_name : string)
         (l : list (Chunk * list Q * option string)) (w : World),
    exists pts w',
      build_points book_id title author_name l w = (inr pts, w') /\
      map pt_id pts = point_ids (entropy w) (next_uuid w) (List.length l) /\
      map payload_of_point pts = map (payload_of_triple book_id) l /\
      map pt_vector pts = map (fun t => snd (fst t)) l /\
      qdrant_points w' = qdrant_points w /\
      b2_files w' = b2_files w.
Proof.
  intros book_id title author_name l. induction l as [| [[chunk vector] url] r IH];
    intros w.
  - exists [], w. repeat split.
  - cbn [build_points]. unfold uuid4. run_task.
    match goal with
    | |- context [build_points book_id title author_name r ?w2] =>
        destruct (IH w2) as (ps & w' & Hrun & Hids & Hpay & Hvec & Hpts & Hb2)
    end.
    rewrite Hrun. eexists. exists w'. split; [reflexivity |].
    cbn in Hids, Hpts, Hb2.
    cbn [map List.length]. rewrite point_ids_cons, Hids, Hpay, Hvec.
    repeat split; assumption.
Qed.

Lemma thread_pool_runs :
  forall (workers : Z) (w : World),
    (0 < workers)%Z -> thread_pool workers w = (inr tt, w).
Proof.
  intros workers w Hpos. unfold thread_pool.
  replace (workers <=? 0)%Z with false by (symmetry; apply Z.leb_gt; exact Hpos).
  reflexivity.
Qed.

Lemma upsert_loop_runs :
  forall (c : string) (batch_size : Z) (pts : list Point) (w : World),
    (0 < batch_size)%Z ->
    NoDup (map pt_id pts) ->
    exists w',
      upsert_loop c batch_size pts w = (inr tt, w') /\
      qdrant_points w' = upserted (qdrant_points w) pts /\
      b2_files w' = b2_files w.
Proof.
  intros c batch_size pts w Hbs Hnodup.
  exists (snd (upsert_loop c batch_size pts w)).
  assert (Hloop : upsert_loop c batch_size pts w
                  = upsert_batches (List.length pts) c (Z.to_nat batch_size) pts w).
  { unfold upsert_loop.
    replace (batch_size =? 0)%Z with false by (symmetry; apply Z.eqb_neq; lia).
    replace (batch_size <? 0)%Z with false by (symmetry; apply Z.ltb_ge; lia).
    reflexivity. }
  destruct (upsert_batches_points (List.length pts) c (Z.to_nat batch_size) pts w
              ltac:(lia) (Nat.le_refl _) Hnodup) as [Hres Hpts].
  rewrite Hloop. split; [| split].
  - destruct (upsert_batches _ _ _ _ _) as [r w']. cbn in *. rewrite Hres. reflexivity.
  - exact Hpts.
  - clear Hloop Hres Hpts Hnodup.
    generalize (List.length pts) as fuel. intros fuel. revert pts w.
    induction fuel as [| fuel' IH]; intros pts w.
    + destruct pts; reflexivity.
    + destruct pts as [| p r]; [reflexivity |].
      cbn [upsert_batches]. rewrite !bind_upsert. rewrite IH. reflexivity.
Qed.

(** X16: what steps 4 to 7 do when they are run, as in a call of
    [ingest_new_book] after a record was inserted; the task as shipped
    ends at step 3 and never gets here. When the extraction returns its
    chunks, the worker count and the batch size are positive and the drawn
    point ids are distinct: every chunk is uploaded once, in order, and the
    uploads that returned a URL are stored; one point is indexed per
    triple of [zip(valid_chunks, vectors, all_urls)], in order, with the
    chunk's title, path, pages and text, over the stored points of other
    ids; the URL it carries is the entry of the unfiltered [all_urls] at
    its position. The last call hands the driver the filter a second time
    as the update document and the [{"$set": ...}] document as third
    argument; its answer is not awaited, so nothing is raised, and the
    steps return the summary with [chunks] the number of points. *)
Theorem steps_4_to_7_fill_the_stores_and_return :
  forall (H : Helpers) (doc : Document) (book_id title author_name : string)
         (batch_size workers : Z) (w : World) (pdf_chunks : list Chunk),
    (0 < workers)%Z ->
    (0 < batch_size)%Z ->
    extraction_stage (collect_leaf_nodes (build_toc_tree (doc_toc doc))) doc "pdfs"
                     book_id = inr pdf_chunks ->
    NoDup (point_ids (entropy w) (next_uuid w)
             (List.length
                (zip3 (valid_chunks_of pdf_chunks
                         (upload_results (mkFileInfo book_id title author_name)
                                         pdf_chunks))
                      (embed_batch
                         (map ch_text
                              (valid_chunks_of pdf_chunks
                                 (upload_results (mkFileInfo book_id title author_name)
                                                 pdf_chunks)))
                         batch_size)
                      (upload_results (mkFileInfo book_id title author_name)
                                      pdf_chunks)))) ->
    fst (ingest_new_book doc book_id title author_name batch_size workers w)
      = inr (mkIngestResult book_id title author_name
               (List.length
                  (zip3 (valid_chunks_of pdf_chunks
                           (upload_results (mkFileInfo book_id title author_name)
                                           pdf_chunks))
                        (embed_batch
                           (map ch_text
                                (valid_chunks_of pdf_chunks
                                   (upload_results
                                      (mkFileInfo book_id title author_name)
                                      pdf_chunks)))
                           batch_size)
                        (upload_results (mkFileInfo book_id title author_name)
                                        pdf_chunks)))
               None) /\
    (exists log,
       calls (snd (ingest_new_book doc book_id title author_name batch_size workers w))
         = (log ++ [MongoUpdateOne (ById book_id) (PlainId book_id)
                      (Some (Operators (SetStatus "complete")))])%list) /\
    b2_files (snd (ingest_new_book doc book_id title author_name batch_size workers w))
      = (b2_files w
           ++ uploaded_files (mkFileInfo book_id title author_name) pdf_chunks)%list /\
    exists points,
      qdrant_points
        (snd (ingest_new_book doc book_id title author_name batch_size workers w))
        = (List.filter (fun p => negb (has_point_id (pt_id p) points)) (qdrant_points w)
             ++ points)%list /\
      map payload_of_point points =
        map (payload_of_triple book_id)
            (zip3 (valid_chunks_of pdf_chunks
                     (upload_results (mkFileInfo book_id title author_name) pdf_chunks))
                  (embed_batch
                     (map ch_text
                          (valid_chunks_of pdf_chunks
                             (upload_results (mkFileInfo book_id title author_name)
                                             pdf_chunks)))
                     batch_size)
                  (upload_results (mkFileInfo book_id title author_name) pdf_chunks)).
Proof.
  intros H doc book_id title author_name batch_size workers w pdf_chunks
         Hworkers Hbs Hextract Hnodup.
  set (file_info := mkFileInfo book_id title author_name) in *.
  set (all_urls := upload_results file_info pdf_chunks) in *.
  set (valid_chunks := valid_chunks_of pdf_chunks all_urls) in *.
  set (vectors := embed_batch (map ch_text valid_chunks) batch_size) in *.
  set (triples := zip3 valid_chunks vectors all_urls) in *.
  unfold ingest_new_book. cbv zeta.
  rewrite (bind_run _ _ _ _ w w tt (thread_pool_runs workers w Hworkers)).
  rewrite Hextract.
  rewrite (bind_run _ _ (lift (inr pdf_chunks)) _ w w pdf_chunks eq_refl).
  rewrite (bind_run _ _ _ _ w w tt (thread_pool_runs workers w Hworkers)).
  destruct (upload_all_runs H file_info pdf_chunks w)
    as (w1 & Hup & Hb2_1 & Hpts_1 & Hent_1 & Hnu_1).
  rewrite (bind_run _ _ _ _ w w1 _ Hup). fold all_urls. fold valid_chunks.
  fold vectors. fold triples.
  rewrite (bind_run _ _ (record _) _ w1 _ tt eq_refl).
  match goal with
  | |- context [bind (build_points book_id title author_name triples) _ ?w2] =>
      destruct (build_points_runs book_id title author_name triples w2)
        as (points & w3 & Hbuild & Hids & Hpay & _ & Hpts_3 & Hb2_3);
      rewrite (bind_run _ _ _ _ w2 w3 points Hbuild)
  end.
  cbn [entropy next_uuid qdrant_points b2_files with_calls] in Hids, Hpts_3, Hb2_3.
  rewrite Hent_1, Hnu_1 in Hids.
  assert (Hnd : NoDup (map pt_id points)) by (rewrite Hids; exact Hnodup).
  destruct (upsert_loop_runs "pdf_chunks" batch_size points w3 Hbs Hnd)
    as (w4 & Hloop & Hpts_4 & Hb2_4).
  rewrite (bind_run _ _ _ _ w3 w4 tt Hloop).
  assert (Hlen : List.length points = List.length triples).
  { rewrite <- (length_map payload_of_point points), Hpay. apply length_map. }
  unfold bind, update_one, record, modify, ret. cbn.
  split; [rewrite Hlen; reflexivity |]. split; [| split].
  - exists (calls w4). reflexivity.
  - rewrite Hb2_4, Hb2_3. exact Hb2_1.
  - exists points. split; [| exact Hpay].
    rewrite Hpts_4, Hpts_3, Hpts_1. reflexivity.
Qed.

(** X16 at the two leaves of "atlas.pdf" in a world of empty stores. *)
Lemma steps_4_to_7_fill_the_stores_and_return_witness :
  fst (ingest_new_book (H := flat_helpers) doc_atlas "b1" "Atlas" "Mercator" 50 6
         (fresh_world []))
    = inr (mkIngestResult "b1" "Atlas" "Mercator" 2 None) /\
  map b2_file_name
    (b2_files
       (snd (ingest_new_book (H := flat_helpers) doc_atlas "b1" "Atlas" "Mercator" 50 6
               (fresh_world []))))
    = ["b1_1_3.pdf"; "b1_3_5.pdf"].
Proof.
  assert (Hnodup : NoDup [2; 4]%Z)
    by (repeat constructor; cbn; intuition discriminate).
  destruct (steps_4_to_7_fill_the_stores_and_return flat_helpers doc_atlas "b1"
              "Atlas" "Mercator" 50%Z 6%Z (fresh_world [])
              [mkChunk "Maps" "Maps" 1 2 "pdfs/b1_1_3.pdf" "b1_1_3.pdf" "m1m2";
               mkChunk "Index" "Index" 3 4 "pdfs/b1_3_5.pdf" "b1_3_5.pdf" "i1i2"]
              eq_refl eq_refl eq_refl Hnodup)
    as (Hret & _ & Hfiles & _).
  split; [exact Hret |]. rewrite Hfiles. reflexivity.
Defined.

(** ** Ingestion: which URL a point carries *)

(** X17: when every upload returned a non-empty URL, one per chunk, no chunk
    is filtered out and the triples the points are built from pair every
    chunk with its own URL. *)
Theorem all_uploads_succeeded_pairs_chunks_with_own_urls :
  forall (pdf_chunks : list Chunk) (all_urls : list (option string))
         (vectors : list (list Q)),
    List.length all_urls = List.length pdf_chunks ->
    Forall (fun u => truthy_url u = true) all_urls ->
    valid_chunks_of pdf_chunks all_urls = pdf_chunks /\
    map (fun t => (fst (fst t), snd t))
        (zip3 (valid_chunks_of pdf_chunks all_urls) vectors all_urls)
      = firstn (List.length vectors) (combine pdf_chunks all_urls).
Proof.
  intros pdf_chunks all_urls vectors Hlen Hall.
  assert (Hvalid : valid_chunks_of pdf_chunks all_urls = pdf_chunks).
  { unfold valid_chunks_of. revert all_urls Hlen Hall.
    induction pdf_chunks as [| c r IH]; intros [| u us] Hlen Hall;
      try discriminate Hlen; [reflexivity |].
    inversion Hall as [| ? ? Hu Hus]; subst.
    cbn. rewrite Hu. cbn. f_equal. apply IH; [injection Hlen as Hlen |]; assumption. }
  split; [exact Hvalid |]. rewrite Hvalid. clear Hvalid Hall.
  revert all_urls vectors Hlen.
  induction pdf_chunks as [| c r IH]; intros [| u us] vectors Hlen;
    try discriminate Hlen.
  - destruct vectors; reflexivity.
  - destruct vectors as [| v vs]; [reflexivity |].
    cbn. f_equal. apply IH. injection Hlen as Hlen. exact Hlen.
Qed.

(** X17 at two chunks with two URLs and two vectors. *)
Lemma all_uploads_succeeded_pairs_chunks_with_own_urls_witness :
  valid_chunks_of
    [mkChunk "Maps" "Maps" 1 2 "l1" "f1" "m"; mkChunk "Index" "Index" 3 4 "l2" "f2" "i"]
    [Some "url1"; Some "url2"]
  = [mkChunk "Maps" "Maps" 1 2 "l1" "f1" "m"; mkChunk "Index" "Index" 3 4 "l2" "f2" "i"].
Proof.
  refine (proj1 (all_uploads_succeeded_pairs_chunks_with_own_urls
                   [mkChunk "Maps" "Maps" 1 2 "l1" "f1" "m";
                    mkChunk "Index" "Index" 3 4 "l2" "f2" "i"]
                   [Some "url1"; Some "url2"] [[0%Q]; [0%Q]] eq_refl _)).
  repeat constructor.
Defined.

(** X18: after a failed upload the pairing slips. When the first chunk's
    upload returned nothing, that chunk is dropped, and the first chunk
    that was uploaded is paired with the first chunk's empty result: its
    point carries no URL of its own. The list of URLs is not filtered
    along with the chunks. *)
Theorem failed_first_upload_shifts_the_urls :
  forall (c0 : Chunk) (rest : list Chunk) (u0 : option string)
         (urls : list (option string)) (v : list Q) (vs : list (list Q)),
    truthy_url u0 = false ->
    zip3 (valid_chunks_of (c0 :: rest) (u0 :: urls)) (v :: vs) (u0 :: urls) =
      match valid_chunks_of rest urls with
      | [] => []
      | c :: cs => (c, v, u0) :: zip3 cs vs urls
      end.
Proof.
  intros c0 rest u0 urls v vs Hfailed.
  unfold valid_chunks_of. cbn [combine List.filter snd]. rewrite Hfailed.
  destruct (map fst (List.filter (fun cu => truthy_url (snd cu)) (combine rest urls)));
    reflexivity.
Qed.

(** X18 at a first upload that failed and a second that worked: the point
    of "Index" is built with [None] as its URL. *)
Lemma failed_first_upload_shifts_the_urls_witness :
  zip3 (valid_chunks_of
          [mkChunk "Maps" "Maps" 1 2 "l1" "f1" "m";
           mkChunk "Index" "Index" 3 4 "l2" "f2" "i"]
          [None; Some "url2"])
       [[0%Q]] [None; Some "url2"]
  = [(mkChunk "Index" "Index" 3 4 "l2" "f2" "i", [0%Q], None)].
Proof.
  exact (failed_first_upload_shifts_the_urls
           (mkChunk "Maps" "Maps" 1 2 "l1" "f1" "m")
           [mkChunk "Index" "Index" 3 4 "l2" "f2" "i"] None [Some "url2"] [0%Q] []
           eq_refl).
Defined.

(** ** Retrieval: how much of a candidate the selection sees *)

Lemma substring_prefix_idempotent :
  forall (n : nat) (s : string),
    substring 0 n (substring 0 n s) = substring 0 n s.
Proof.
  induction n as [| n' IH]; intros s.
  - destruct s; reflexivity.
  - destruct s as [| c r]; [reflexivity |].
    cbn. f_equal. apply IH.
Qed.

(** X21: the selection prompt shows at most the first 500 characters of a
    candidate's content: cutting every candidate's content to its first
    500 characters leaves the prompt, and with it the selection, the
    same. *)
Theorem selection_reads_first_500_characters :
  forall (E : Externals) (contexts : list Context) (user_query : string),
    let cut := fun c =>
      mkContext (c_id c) (c_score c) (c_heading c)
                (option_map (substring 0 500) (c_content c)) in
    selection_prompt (map cut contexts) user_query
      = selection_prompt contexts user_query /\
    select_top_contexts_task (map cut contexts) user_query
      = select_top_contexts_task contexts user_query.
Proof.
  intros E contexts user_query cut.
  assert (Hentries : forall i,
            enumerate_map context_entry i (map cut contexts)
            = enumerate_map context_entry i contexts).
  { induction contexts as [| c r IH]; intros i; [reflexivity |].
    cbn [map enumerate_map]. rewrite IH. f_equal.
    unfold context_entry, cut. cbn [c_id c_heading c_content].
    destruct (c_content c) as [content |]; cbn [option_map get_or];
      [rewrite substring_prefix_idempotent |]; reflexivity. }
  assert (Hprompt : selection_prompt (map cut contexts) user_query
                    = selection_prompt contexts user_query).
  { unfold selection_prompt. rewrite Hentries, length_map. reflexivity. }
  split; [exact Hprompt |].
  unfold select_top_contexts_task. rewrite Hprompt.
  destruct (select_with_model (selection_prompt contexts user_query)); [| reflexivity].
  unfold first_three_ids. f_equal.
  rewrite firstn_map, map_map. apply map_ext. intros c. reflexivity.
Qed.
